(** * PAR/REC headers (nibabel/parrec.py): a shallow embedding

    The PAR header of a Philips PAR/REC image is an ASCII file: "general
    information" lines [. key : value] and one whitespace separated line per
    image (the image definitions).  This file embeds

    - [parse_PAR_header], the reader of that text, and
    - the methods of [PARRECHeader] that derive shape, zooms, scaling and
      the affine from the two containers the reader returns.

    Conventions.
    - Python [int] is [Z]; Python [float] and numpy [float64] are Rocq's
      primitive binary64 floats.  Integer fields are kept as [Z]: the
      OverflowError of a token of 2^63 or more, stored into a 64 bit
      field, is not modelled.
    - Text is a string of bytes, as a Python 2 [str]: whitespace is the
      six ASCII characters (a Python 3 [str] also takes 0x1c-0x1f, 0x85
      and 0xa0 for whitespace).
    - A raised exception is [Raise e]; [e] is the Python exception class.
    - numpy arrays are lists; arrays whose shape the dtype fixes are tuples.
    - The reader returns a dict and a structured array; the header methods
      work on records with the entries and the fields the methods read,
      typed as the two schemas declare them.
    - Summation order inside [np.dot] is left to right. *)

From Stdlib Require Import ZArith List String Ascii Bool Lia.
From Stdlib Require Import PrimFloat Uint63.
From Stdlib Require Import Sorted.
Import ListNotations.

Set Implicit Arguments.
Open Scope Z_scope.

(* ================================================================== *)
(** * Exceptions *)

Inductive exn : Type :=
| PARRECError        (* class PARRECError(Exception) *)
| RuntimeError
| ValueError
| IndexError
| KeyError
| TypeError
| ZeroDivisionError
| HeaderDataError.   (* raised by the base class Header *)

Inductive result (A : Type) : Type :=
| OK (a : A)
| Raise (e : exn).

Arguments OK {A} a.
Arguments Raise {A} e.

Definition bind {A B} (r : result A) (k : A -> result B) : result B :=
  match r with
  | OK a => k a
  | Raise e => Raise e
  end.

Notation "x <- r ;; k" := (bind r (fun x => k))
  (at level 61, r at next level, right associativity).

Definition fmap {A B} (f : A -> B) (r : result A) : result B :=
  x <- r ;; OK (f x).

Fixpoint mapM {A B} (f : A -> result B) (l : list A) : result (list B) :=
  match l with
  | [] => OK []
  | x :: l' => y <- f x ;; ys <- mapM f l' ;; OK (y :: ys)
  end.

(** [l[i]] for [0 <= i]: out of range raises IndexError. *)
Definition getitem {A} (l : list A) (i : nat) : result A :=
  match nth_error l i with
  | Some x => OK x
  | None => Raise IndexError
  end.

(** [l[i] = v] for an index in range (the only use below). *)
Fixpoint setitem {A} (l : list A) (i : nat) (v : A) : list A :=
  match l, i with
  | [], _ => []
  | _ :: l', O => v :: l'
  | x :: l', S i' => x :: setitem l' i' v
  end.

(* ================================================================== *)
(** * numpy: dtypes, [np.unique], columns *)

(** The comparisons numpy sorts and deduplicates with.  For floats the
    order is numpy's, which puts NaN last. *)
Class Dtype (A : Type) : Type := {
  np_less : A -> A -> bool;
  np_not_equal : A -> A -> bool
}.

#[export] Instance int_dtype : Dtype Z := {|
  np_less := Z.ltb;
  np_not_equal := fun a b => negb (Z.eqb a b)
|}.

#[export] Instance float_dtype : Dtype float := {|
  np_less := fun a b =>
    (PrimFloat.ltb a b || (negb (PrimFloat.eqb b b) && PrimFloat.eqb a a))%bool;
  np_not_equal := fun a b => negb (PrimFloat.eqb a b)
|}.

Section Unique.
Context {A : Type} `{Dtype A}.

(** [x] goes before the first element that is not less than it, so
    that equal values stay in the order of the array. *)
Fixpoint insert_sorted (x : A) (l : list A) : list A :=
  match l with
  | [] => [x]
  | y :: l' => if np_less y x then y :: insert_sorted x l' else x :: l
  end.

(** [ar.sort()] *)
Definition np_sort (l : list A) : list A := fold_right insert_sorted [] l.

(** [ar[1:] != ar[:-1]]: keep an element when it differs from the one
    before it. *)
Fixpoint keep_changes (prev : A) (l : list A) : list A :=
  match l with
  | [] => []
  | x :: l' =>
      if np_not_equal x prev then x :: keep_changes x l'
      else keep_changes x l'
  end.

(** [np.unique(ar)]: the sorted distinct values. *)
Definition np_unique (l : list A) : list A :=
  match np_sort l with
  | [] => []
  | x :: l' => x :: keep_changes x l'
  end.
End Unique.

(** A column of the structured array [image_defs]: shape [(N,)] for a
    scalar field, [(N, k)] for a field declared with a shape. *)
Inductive ndarray (A : Type) : Type :=
| Arr1 (l : list A)
| Arr2 (rows : list (list A)).

Arguments Arr1 {A} l.
Arguments Arr2 {A} rows.

(** [len(prop.shape)] *)
Definition ndim_of {A} (a : ndarray A) : nat :=
  match a with Arr1 _ => 1 | Arr2 _ => 2 end.

(** [np.prod] of a list of lengths *)
Definition np_prod (l : list nat) : nat := fold_right Nat.mul 1%nat l.

(* ================================================================== *)
(** * The two containers of a header *)

(** The entries of [general_info] that the header methods read; the types
    are those [_hdr_key_dict] declares for the keys. *)
Record GeneralInfo : Type := {
  max_echoes : Z;               (* 'Max. number of echoes' *)
  max_slices : Z;               (* 'Max. number of slices/locations' *)
  max_dynamics : Z;             (* 'Max. number of dynamics' *)
  repetition_time : float;      (* 'Repetition time [ms]' *)
  (* 'Angulation midslice(ap,fh,rl)[degr]' *)
  angulation : float * float * float;
  (* 'Off Centre midslice(ap,fh,rl) [mm]' *)
  off_center : float * float * float;
  max_diffusion_values : Z;     (* 'Max. number of diffusion values' *)
  max_gradient_orient : Z       (* 'Max. number of gradient orients' *)
}.

(** One record of [image_defs] (dtype [image_def_dtype]): the fields the
    header methods read, and ['image angulation'] as an array field of
    three elements. *)
Record image_def : Type := {
  slice_number : Z;
  echo_number : Z;
  dynamic_scan_number : Z;
  image_pixel_size : Z;
  recon_resolution : Z * Z;
  rescale_intercept : float;
  rescale_slope : float;
  scale_slope : float;
  image_angulation : float * float * float;
  slice_thickness : float;
  slice_gap : float;
  slice_orientation : Z;
  pixel_spacing : float * float
}.

(** The names of those fields, indexed by the dtype of the column. *)
Inductive field : Type -> Type :=
| Slice_number : field Z               (* 'slice number' *)
| Echo_number : field Z                (* 'echo number' *)
| Dynamic_scan_number : field Z        (* 'dynamic scan number' *)
| Image_pixel_size : field Z           (* 'image pixel size' *)
| Recon_resolution : field Z           (* 'recon resolution' *)
| Rescale_intercept : field float      (* 'rescale intercept' *)
| Rescale_slope : field float          (* 'rescale slope' *)
| Scale_slope : field float            (* 'scale slope' *)
| Image_angulation : field float       (* 'image angulation' *)
| Slice_thickness : field float        (* 'slice thickness' *)
| Slice_gap : field float              (* 'slice gap' *)
| Slice_orientation : field Z          (* 'slice orientation' *)
| Pixel_spacing : field float.         (* 'pixel spacing' *)

Definition pair_list {A} (p : A * A) : list A := [fst p; snd p].

Definition triple_list {A} (t : A * A * A) : list A :=
  let '(a, b, c) := t in [a; b; c].

(** [image_defs[name]] *)
Definition column {A} (image_defs : list image_def) (name : field A)
  : ndarray A :=
  match name in field T return ndarray T with
  | Slice_number => Arr1 (map slice_number image_defs)
  | Echo_number => Arr1 (map echo_number image_defs)
  | Dynamic_scan_number => Arr1 (map dynamic_scan_number image_defs)
  | Image_pixel_size => Arr1 (map image_pixel_size image_defs)
  | Recon_resolution =>
      Arr2 (map (fun r => pair_list (recon_resolution r)) image_defs)
  | Rescale_intercept => Arr1 (map rescale_intercept image_defs)
  | Rescale_slope => Arr1 (map rescale_slope image_defs)
  | Scale_slope => Arr1 (map scale_slope image_defs)
  | Image_angulation =>
      Arr2 (map (fun r => triple_list (image_angulation r)) image_defs)
  | Slice_thickness => Arr1 (map slice_thickness image_defs)
  | Slice_gap => Arr1 (map slice_gap image_defs)
  | Slice_orientation => Arr1 (map slice_orientation image_defs)
  | Pixel_spacing =>
      Arr2 (map (fun r => pair_list (pixel_spacing r)) image_defs)
  end.

(** What the base class [Header] (spatialimages) keeps. *)
Record Header : Type := {
  data_dtype : Z;          (* bits of the signed integer type *)
  data_shape : list Z;
  data_zooms : list float
}.

Record PARRECHeader : Type := {
  general_info : GeneralInfo;
  image_defs : list image_def;
  _slice_orientation : option string;
  default_scaling : string;
  base : Header
}.

(* ================================================================== *)
(** * PARRECHeader: uniqueness, shape, zooms, scaling *)

(** [x > 1] *)
Definition gt1 (x : Z) : bool := 1 <? x.

(** [len(l)] as a Python [int] *)
Definition len {A} (l : list A) : Z := Z.of_nat (List.length l).

(** [_get_unique_image_prop(self, name)].  For a column with more than one
    axis the source indexes [prop[i]] for [i] in [range(len(prop.shape))],
    that is the first [len(prop.shape)] records of the table. *)
Definition _get_unique_image_prop {A} `{Dtype A}
    (self : PARRECHeader) (name : field A) : result (list A) :=
  let prop := column (image_defs self) name in
  uprops <-
    match prop with
    | Arr2 rows =>
        mapM (fun i => row <- getitem rows i ;; OK (np_unique row))
             (seq 0 (ndim_of prop))
    | Arr1 l => OK [np_unique l]
    end ;;
  if negb (np_prod (map (@List.length A) uprops) =? 1)%nat
  then Raise PARRECError
  else mapM (fun uprop => getitem uprop 0) uprops.

(** [get_voxel_size(self)] *)
Definition get_voxel_size (self : PARRECHeader) : result (list float) :=
  u <- _get_unique_image_prop self Slice_thickness ;;
  slice_thickness <- getitem u 0 ;;
  voxsize_inplane <- _get_unique_image_prop self Pixel_spacing ;;
  x <- getitem voxsize_inplane 0 ;;
  y <- getitem voxsize_inplane 1 ;;
  OK [x; y; slice_thickness].

(** [get_data_offset(self)] *)
Definition get_data_offset (self : PARRECHeader) : Z := 0.

(** [set_data_offset(self, offset)] *)
Definition set_data_offset (self : PARRECHeader) (offset : Z) : result unit :=
  if negb (offset =? 0) then Raise PARRECError else OK tt.

(** [get_ndim(self)] *)
Definition get_ndim (self : PARRECHeader) : nat :=
  let info := general_info self in
  if (gt1 (max_dynamics info) || gt1 (max_gradient_orient info)
      || gt1 (max_echoes info))%bool
  then 4%nat else 3%nat.

(** [_get_zooms(self)] *)
Definition _get_zooms (self : PARRECHeader) : result (list float) :=
  u <- _get_unique_image_prop self Slice_gap ;;
  slice_gap <- getitem u 0 ;;
  let zooms := repeat 1%float (get_ndim self) in
  voxsize <- get_voxel_size self ;;
  (* zooms[:3] = self.get_voxel_size() *)
  let zooms := voxsize ++ skipn 3 zooms in
  (* zooms[2] += slice_gap *)
  z2 <- getitem zooms 2 ;;
  let zooms := setitem zooms 2 (z2 + slice_gap)%float in
  if ((3 <? List.length zooms)%nat
      && gt1 (max_dynamics (general_info self)))%bool
  then OK (setitem zooms 3
             (repetition_time (general_info self) / 1000)%float)
  else OK zooms.

(** [get_data_shape_in_file(self)] *)
Definition get_data_shape_in_file (self : PARRECHeader) : result (list Z) :=
  let info := general_info self in
  let ndynamics :=
    len (np_unique (map dynamic_scan_number (image_defs self))) in
  let ndtivolumes :=
    (max_diffusion_values info - 1) * max_gradient_orient info in
  let nslices := len (np_unique (map slice_number (image_defs self))) in
  if negb (nslices =? max_slices info) then Raise PARRECError else
  let nechos := len (np_unique (map echo_number (image_defs self))) in
  let lens := [ndynamics; ndtivolumes; nechos] in
  if (1 <? List.length (filter gt1 lens))%nat then Raise RuntimeError else
  inplane_shape <- _get_unique_image_prop self Recon_resolution ;;
  let shape := inplane_shape ++ [nslices] in
  if gt1 ndynamics then OK (shape ++ [ndynamics])
  else if gt1 ndtivolumes then OK (shape ++ [ndtivolumes])
  else if gt1 nechos then OK (shape ++ [nechos])
  else OK shape.

(** The local variables of [get_data_shape_in_file]. *)
Definition ndynamics (self : PARRECHeader) : Z :=
  len (np_unique (map dynamic_scan_number (image_defs self))).

Definition ndtivolumes (self : PARRECHeader) : Z :=
  (max_diffusion_values (general_info self) - 1)
  * max_gradient_orient (general_info self).

Definition nslices (self : PARRECHeader) : Z :=
  len (np_unique (map slice_number (image_defs self))).

Definition nechos (self : PARRECHeader) : Z :=
  len (np_unique (map echo_number (image_defs self))).

(** Elementwise operation on two arrays of one shape. *)
Definition elementwise {A B C} (f : A -> B -> C) (a : list A) (b : list B)
  : list C :=
  map (fun p => f (fst p) (snd p)) (combine a b).

(** [get_data_scaling(self, method="dv")] *)
Definition get_data_scaling (self : PARRECHeader) (method : string)
  : result (list float * list float) :=
  scale_slope' <- _get_unique_image_prop self Scale_slope ;;
  rescale_slope' <- _get_unique_image_prop self Rescale_slope ;;
  rescale_intercept' <- _get_unique_image_prop self Rescale_intercept ;;
  if (method =? "dv")%string then
    OK (rescale_slope', rescale_intercept')
  else if (method =? "fp")%string then
    let slope := map (fun s => 1 / s)%float scale_slope' in
    let intercept :=
      elementwise PrimFloat.div rescale_intercept'
        (elementwise PrimFloat.mul rescale_slope' scale_slope') in
    OK (slope, intercept)
  else Raise ValueError.

(** [np.asscalar(v)]: the element of an array of size one. *)
Definition np_asscalar {A} (v : list A) : result A :=
  match v with
  | [x] => OK x
  | _ => Raise ValueError
  end.

(** [get_slope_inter(self)] *)
Definition get_slope_inter (self : PARRECHeader) : result (float * float) :=
  si <- get_data_scaling self (default_scaling self) ;;
  slope <- np_asscalar (fst si) ;;
  inter <- np_asscalar (snd si) ;;
  OK (slope, inter).

(** Modelled from the spec: [apply_read_scaling] (volumeutils) is not in
    this file; the spec gives it as elementwise [value*slope + intercept]. *)
Definition apply_read_scaling (data : list float) (slope inter : float)
  : list float :=
  map (fun v => v * slope + inter)%float data.

(** [np.typeDict['int' + str(bits)]], as the width in bits of the type
    found: 'int8', 'int16', 'int32', 'int64' are the signed integers of
    that width, 'int0' is [intp], 64 bits wide on a 64 bit platform; any
    other name is a KeyError. *)
Definition np_typeDict_int (bits : Z) : result Z :=
  if ((bits =? 8) || (bits =? 16) || (bits =? 32) || (bits =? 64))%bool
  then OK bits
  else if bits =? 0 then OK 64
  else Raise KeyError.

(** The object [__init__] works on before it calls [Header.__init__]:
    the four attributes set, nothing in the base class yet. *)
Definition new_header (info : GeneralInfo) (image_defs : list image_def)
    (default_scaling : string) : PARRECHeader :=
  {| general_info := info; image_defs := image_defs;
     _slice_orientation := None;
     default_scaling := default_scaling;
     base := {| data_dtype := 0; data_shape := []; data_zooms := [] |} |}.

(** The header with the three attributes of the base class set. *)
Definition set_base (self : PARRECHeader) (dtype : Z) (shape : list Z)
    (zooms : list float) : PARRECHeader :=
  {| general_info := general_info self; image_defs := image_defs self;
     _slice_orientation := _slice_orientation self;
     default_scaling := default_scaling self;
     base := {| data_dtype := dtype; data_shape := shape;
                data_zooms := zooms |} |}.

(** Modelled from the spec: the base class [Header] (spatialimages) is not
    in this file; the spec has the header hold data type, shape and zoom
    vector.  [Header.__init__(self, data_dtype, shape, zooms)] sets the
    data type, then the shape ([set_data_shape]: an empty shape becomes
    [(0,)]), then the zooms ([set_zooms]), which raises HeaderDataError
    unless there is one zoom for each axis of the shape and no zoom is
    below zero. *)
Definition Header_init (self : PARRECHeader) (dtype : Z) (shape : list Z)
    (zooms : list float) : result PARRECHeader :=
  let shape := match shape with [] => [0] | _ => shape end in
  if negb (List.length zooms =? List.length shape)%nat
  then Raise HeaderDataError
  else if existsb (fun z => PrimFloat.ltb z 0) zooms
  then Raise HeaderDataError
  else OK (set_base self dtype shape zooms).

(** [PARRECHeader.__init__(self, info, image_defs, default_scaling='dv')] *)
Definition __init__ (info : GeneralInfo) (image_defs : list image_def)
    (default_scaling : string) : result PARRECHeader :=
  let self := new_header info image_defs default_scaling in
  u <- _get_unique_image_prop self Image_pixel_size ;;
  bits <- getitem u 0 ;;
  dtype <- np_typeDict_int bits ;;
  shape <- get_data_shape_in_file self ;;
  zooms <- _get_zooms self ;;
  Header_init self dtype shape zooms.

(** [copy(self)]: the third argument of the constructor is not passed. *)
Definition copy (self : PARRECHeader) : result PARRECHeader :=
  __init__ (general_info self) (image_defs self) "dv".

(** What [from_header] can be given: [None], a [PARRECHeader], or a
    header of another class (a subclass included: the test is
    [type(header) == klass]). *)
Inductive header_arg : Type :=
| NoHeader
| PARREC (header : PARRECHeader)
| OtherHeader.

(** [from_header(klass, header=None)] *)
Definition from_header (header : header_arg) : result PARRECHeader :=
  match header with
  | NoHeader => Raise PARRECError
  | PARREC h => copy h
  | OtherHeader => Raise PARRECError
  end.

(** [get_data_shape], [get_zooms] of the base class *)
Definition get_data_shape (self : PARRECHeader) : list Z :=
  data_shape (base self).

Definition get_zooms (self : PARRECHeader) : list float :=
  data_zooms (base self).

(* ================================================================== *)
(** * PARRECHeader: slice orientation and affine *)

Definition vec3 : Type := float * float * float.
Definition mat3 : Type := vec3 * vec3 * vec3.
Definition vec4 : Type := float * float * float * float.
Definition mat4 : Type := vec4 * vec4 * vec4 * vec4.

Definition dot4 (a b : vec4) : float :=
  let '(a0, a1, a2, a3) := a in
  let '(b0, b1, b2, b3) := b in
  (a0 * b0 + a1 * b1 + a2 * b2 + a3 * b3)%float.

Definition transpose4 (m : mat4) : mat4 :=
  let '((m00, m01, m02, m03), (m10, m11, m12, m13),
        (m20, m21, m22, m23), (m30, m31, m32, m33)) := m in
  ((m00, m10, m20, m30), (m01, m11, m21, m31),
   (m02, m12, m22, m32), (m03, m13, m23, m33)).

Definition row_dot (r : vec4) (cols : mat4) : vec4 :=
  let '(c0, c1, c2, c3) := cols in
  (dot4 r c0, dot4 r c1, dot4 r c2, dot4 r c3).

(** [np.dot(a, b)] for two 4x4 arrays *)
Definition np_dot (a b : mat4) : mat4 :=
  let '(r0, r1, r2, r3) := a in
  let cols := transpose4 b in
  (row_dot r0 cols, row_dot r1 cols, row_dot r2 cols, row_dot r3 cols).

(** PSL to RAS affine *)
Definition PSL_TO_RAS : mat4 :=
  (( 0,  0, -1, 0),  (* L -> R *)
   (-1,  0,  0, 0),  (* P -> A *)
   ( 0,  1,  0, 0),  (* S -> S *)
   ( 0,  0,  0, 1))%float.

(** Acquisition (tra/sag/cor) to PSL axes *)
Definition ACQ_TO_PSL : list (string * mat4) :=
  [ ("transverse"%string,
     ((0, 1, 0, 0),    (* P *)
      (0, 0, 1, 0),    (* S *)
      (1, 0, 0, 0),    (* L *)
      (0, 0, 0, 1))%float);
    ("sagittal"%string,
     ((1, 0, 0, 0),
      (0, -1, 0, 0),
      (0, 0, -1, 0),
      (0, 0, 0, 1))%float);
    ("coronal"%string,
     ((0, 0, 1, 0),    (* P *)
      (0, -1, 0, 0),   (* S *)
      (1, 0, 0, 0),    (* L *)
      (0, 0, 0, 1))%float) ].

(** [d.get(key)] *)
Fixpoint dict_get {V} (d : list (string * V)) (key : string) : option V :=
  match d with
  | [] => None
  | (k, v) :: d' => if (k =? key)%string then Some v else dict_get d' key
  end.

(** slice orientation codes: code, label *)
Definition slice_orientation_codes : list (Z * string) :=
  [ (1, "transverse"%string); (2, "sagittal"%string); (3, "coronal"%string) ].

(** Modelled from the spec: [Recoder] (volumeutils) is not in this file.
    [slice_orientation_codes.label[code]] maps a code through the table
    above; the spec has an unknown code fail (its UnknownOrientationError),
    which for the Python mapping the Recoder keeps is a KeyError. *)
Fixpoint Recoder_label (codes : list (Z * string)) (code : Z)
  : result string :=
  match codes with
  | [] => Raise KeyError
  | (c, label) :: codes' =>
      if c =? code then OK label else Recoder_label codes' code
  end.

Definition set_slice_orientation (self : PARRECHeader) (label : string)
  : PARRECHeader :=
  {| general_info := general_info self; image_defs := image_defs self;
     _slice_orientation := Some label;
     default_scaling := default_scaling self; base := base self |}.

(** [get_slice_orientation(self)]: the label, and the header with the
    label kept in [self._slice_orientation]. *)
Definition get_slice_orientation (self : PARRECHeader)
  : result (string * PARRECHeader) :=
  match _slice_orientation self with
  | None =>
      u <- _get_unique_image_prop self Slice_orientation ;;
      code <- getitem u 0 ;;
      label <- Recoder_label slice_orientation_codes code ;;
      OK (label, set_slice_orientation self label)
  | Some label => OK (label, self)
  end.

(** Conversion of a Python [int] to [float]; exact below 2^53 in absolute
    value, rounded to nearest below 2^63. *)
Definition float_of_Z (z : Z) : float :=
  match z with
  | Z0 => 0%float
  | Zpos _ => PrimFloat.of_uint63 (Uint63.of_Z z)
  | Zneg p => (- PrimFloat.of_uint63 (Uint63.of_Z (Zpos p)))%float
  end.

(** [np.pi] *)
Definition np_pi : float := 0x1.921fb54442d18p+1%float.

(** [np.eye(3)] *)
Definition np_eye3 : mat3 :=
  ((1, 0, 0), (0, 1, 0), (0, 0, 1))%float.

(** Modelled from the spec: [from_matvec] (affines) is not in this file.
    It puts a 3x3 matrix and a translation into a 4x4 affine with last
    row 0 0 0 1. *)
Definition from_matvec (matrix : mat3) (vector : vec3) : mat4 :=
  let '((m00, m01, m02), (m10, m11, m12), (m20, m21, m22)) := matrix in
  let '(v0, v1, v2) := vector in
  ((m00, m01, m02, v0), (m10, m11, m12, v1), (m20, m21, m22, v2),
   (0, 0, 0, 1)%float).

(** The vector written into the last column of a 3x3-based affine: three
    values, or one value that numpy broadcasts. *)
Definition as_vec3 (l : list float) : result vec3 :=
  match l with
  | [a; b; c] => OK (a, b, c)
  | [a] => OK (a, a, a)
  | _ => Raise ValueError
  end.

(** [np.diag(list(zooms[:3]) + [1])]: a 4x4 array when there are three
    zooms. *)
Definition zoomer_of (zooms3 : list float) : option mat4 :=
  match zooms3 with
  | [z0; z1; z2] =>
      Some ((z0, 0, 0, 0), (0, z1, 0, 0), (0, 0, z2, 0), (0, 0, 0, 1))%float
  | _ => None
  end.

(** [psl_aff[:3, 3] += iso_offset] *)
Definition add_offset (psl_aff : mat4) (iso_offset : vec3) : mat4 :=
  let '((m00, m01, m02, m03), (m10, m11, m12, m13),
        (m20, m21, m22, m23), r3) := psl_aff in
  let '(o0, o1, o2) := iso_offset in
  ((m00, m01, m02, m03 + o0), (m10, m11, m12, m13 + o1),
   (m20, m21, m22, m23 + o2), r3)%float.




Section Affine.

(** [euler2mat(z, y, x)] (eulerangles) is not in this file: the 3x3
    rotation for rotations around the z, y and x axes. *)
Variable euler2mat : float -> float -> float -> mat3.

(** Modelled from the spec: [dot_reduce] (affines) is not in this file;
    it multiplies its arguments from right to left.  A [zoomer] that is
    not 4x4 makes the first product fail. *)
Definition dot_reduce (rot permute_to_psl : mat4) (zoomer : option mat4)
    (to_center : mat4) : result mat4 :=
  match zoomer with
  | None => Raise ValueError
  | Some z => OK (np_dot rot (np_dot permute_to_psl (np_dot z to_center)))
  end.

(** [get_affine(self, origin='scanner')]: the affine, and the header
    after [get_slice_orientation]. *)
Definition get_affine (self : PARRECHeader) (origin : string)
  : result (mat4 * PARRECHeader) :=
  let ijk_shape := firstn 3 (get_data_shape self) in
  center <- as_vec3
    (map (fun s => float_of_Z (- (s - 1)) / 2)%float ijk_shape) ;;
  let to_center := from_matvec np_eye3 center in
  let zoomer := zoomer_of (firstn 3 (get_zooms self)) in
  so <- get_slice_orientation self ;;
  let slice_orientation := fst so in
  let self := snd so in
  match dict_get ACQ_TO_PSL slice_orientation with
  | None => Raise PARRECError
  | Some permute_to_psl =>
      let '(ap, fh, rl) := angulation (general_info self) in
      let rad := fun a => (a * np_pi / 180)%float in
      let rot := from_matvec (euler2mat (rad rl) (rad fh) (rad ap))
                   (0, 0, 0)%float in
      psl_aff <- dot_reduce rot permute_to_psl zoomer to_center ;;
      let psl_aff :=
        if (origin =? "scanner")%string
        then add_offset psl_aff (off_center (general_info self))
        else psl_aff in
      OK (np_dot PSL_TO_RAS psl_aff, self)
  end.

(** The headers a program holds: constructed by [__init__], then
    passed through [get_slice_orientation] and [get_affine], which keep
    the label in the header. *)
Inductive reachable : PARRECHeader -> Prop :=
| reach_init info defs scaling h :
    __init__ info defs scaling = OK h -> reachable h
| reach_orientation h label h' :
    reachable h -> get_slice_orientation h = OK (label, h') ->
    reachable h'
| reach_affine h origin aff h' :
    reachable h -> get_affine h origin = OK (aff, h') -> reachable h'.

End Affine.

(** What holds of a header a program holds: the shape has its three
    spatial entries, and a label kept in the header is the label of the
    code the table has. *)
Definition header_inv (h : PARRECHeader) : Prop :=
  (exists x y z rest, get_data_shape h = x :: y :: z :: rest)
  /\ (forall label, _slice_orientation h = Some label ->
      exists code,
        _get_unique_image_prop h Slice_orientation = OK [code]
        /\ Recoder_label slice_orientation_codes code = OK label).

(* ================================================================== *)
(** * Python strings *)

(** ASCII whitespace, what [str.strip] and [str.split] of a byte string
    remove: space and the characters 9 to 13. *)
Definition is_space (c : ascii) : bool :=
  let n := nat_of_ascii c in
  ((n =? 32) || ((9 <=? n) && (n <=? 13)))%nat.

Definition is_empty (s : string) : bool :=
  match s with EmptyString => true | String _ _ => false end.

Fixpoint lstrip (s : string) : string :=
  match s with
  | EmptyString => EmptyString
  | String c s' => if is_space c then lstrip s' else s
  end.

Fixpoint rstrip (s : string) : string :=
  match s with
  | EmptyString => EmptyString
  | String c s' =>
      let r := rstrip s' in
      if (is_space c && is_empty r)%bool then EmptyString else String c r
  end.

(** [s.strip()] *)
Definition strip (s : string) : string := rstrip (lstrip s).

(** [s.split()]: [cur] is the token being read. *)
Fixpoint split_from (cur : string) (s : string) : list string :=
  match s with
  | EmptyString => if is_empty cur then [] else [cur]
  | String c s' =>
      if is_space c
      then (if is_empty cur then split_from EmptyString s'
            else cur :: split_from EmptyString s')
      else split_from (cur ++ String c EmptyString) s'
  end.

Definition split (s : string) : list string := split_from EmptyString s.

(** [s.startswith(p)] *)
Definition startswith (s p : string) : bool := String.prefix p s.

(** [s.count(sub)] is not zero *)
Definition contains (s sub : string) : bool :=
  match String.index 0 sub s with Some _ => true | None => false end.

(** [s.find(sub)] *)
Definition find (s sub : string) : Z :=
  match String.index 0 sub s with Some i => Z.of_nat i | None => -1 end.

(** [s[i:j]] and [s[i:]] for [0 <= i] *)
Definition slice (s : string) (i j : Z) : string :=
  String.substring (Z.to_nat i) (Z.to_nat (j - i)) s.

Definition slice_from (s : string) (i : Z) : string :=
  String.substring (Z.to_nat i) (String.length s) s.

(** [" ".join(l)] *)
Definition join_space (l : list string) : string := String.concat " " l.

(* ================================================================== *)
(** * The two schemas *)

Inductive pytype : Type :=
| t_int       (* int *)
| t_float     (* float *)
| t_S30.      (* 'S30' *)

(** An entry [(name[, dtype[, shape]])] of a schema. *)
Inductive props : Type :=
| P1 (name : string)
| P2 (name : string) (dtype : pytype)
| P3 (name : string) (dtype : pytype) (shape : list nat).

(** [props[0]] *)
Definition props_name (p : props) : string :=
  match p with P1 n | P2 n _ | P3 n _ _ => n end.

(** PAR header versions we claim to understand *)
Definition supported_versions : list string := ["V4.2"%string].

Open Scope string_scope.

(** General information dict definitions: key, then
    (shortname[, dtype[, shape]]) *)
Definition _hdr_key_dict : list (string * props) :=
  [ ("Patient name", P1 "patient_name");
    ("Examination name", P1 "exam_name");
    ("Protocol name", P1 "protocol_name");
    ("Examination date/time", P1 "exam_date");
    ("Series Type", P1 "series_type");
    ("Acquisition nr", P2 "acq_nr" t_int);
    ("Reconstruction nr", P2 "recon_nr" t_int);
    ("Scan Duration [sec]", P2 "scan_duration" t_float);
    ("Max. number of cardiac phases", P2 "max_cardiac_phases" t_int);
    ("Max. number of echoes", P2 "max_echoes" t_int);
    ("Max. number of slices/locations", P2 "max_slices" t_int);
    ("Max. number of dynamics", P2 "max_dynamics" t_int);
    ("Max. number of mixes", P2 "max_mixes" t_int);
    ("Patient position", P1 "patient_position");
    ("Preparation direction", P1 "prep_direction");
    ("Technique", P1 "tech");
    ("Scan resolution  (x, y)", P3 "scan_resolution" t_int [2%nat]);
    ("Scan mode", P1 "san_mode");
    ("Repetition time [ms]", P2 "repetition_time" t_float);
    ("FOV (ap,fh,rl) [mm]", P3 "fov" t_float [3%nat]);
    ("Water Fat shift [pixels]", P2 "water_fat_shift" t_float);
    ("Angulation midslice(ap,fh,rl)[degr]", P3 "angulation" t_float [3%nat]);
    ("Off Centre midslice(ap,fh,rl) [mm]", P3 "off_center" t_float [3%nat]);
    ("Flow compensation <0=no 1=yes> ?", P2 "flow_compensation" t_int);
    ("Presaturation     <0=no 1=yes> ?", P2 "presaturation" t_int);
    ("Phase encoding velocity [cm/sec]",
       P3 "phase_enc_velocity" t_float [3%nat]);
    ("MTC               <0=no 1=yes> ?", P2 "mtc" t_int);
    ("SPIR              <0=no 1=yes> ?", P2 "spir" t_int);
    ("EPI factor        <0,1=no EPI>", P2 "epi_factor" t_int);
    ("Dynamic scan      <0=no 1=yes> ?", P2 "dyn_scan" t_int);
    ("Diffusion         <0=no 1=yes> ?", P2 "diffusion" t_int);
    ("Diffusion echo time [ms]", P2 "diffusion_echo_time" t_float);
    ("Max. number of diffusion values", P2 "max_diffusion_values" t_int);
    ("Max. number of gradient orients", P2 "max_gradient_orient" t_int);
    ("Number of label types   <0=no ASL>", P2 "nr_label_types" t_int) ].

(** Image information: header items in the order of an image definition
    line *)
Definition image_def_dtd : list props :=
  [ P2 "slice number" t_int;
    P2 "echo number" t_int;
    P2 "dynamic scan number" t_int;
    P2 "cardiac phase number" t_int;
    P2 "image_type_mr" t_int;
    P2 "scanning sequence" t_int;
    P2 "index in REC file" t_int;
    P2 "image pixel size" t_int;
    P2 "scan percentage" t_int;
    P3 "recon resolution" t_int [2%nat];
    P2 "rescale intercept" t_float;
    P2 "rescale slope" t_float;
    P2 "scale slope" t_float;
    P2 "window center" t_int;
    P2 "window width" t_int;
    P3 "image angulation" t_float [3%nat];
    P3 "image offcentre" t_float [3%nat];
    P2 "slice thickness" t_float;
    P2 "slice gap" t_float;
    P2 "image_display_orientation" t_int;
    P2 "slice orientation" t_int;
    P2 "fmri_status_indication" t_int;
    P2 "image_type_ed_es" t_int;
    P3 "pixel spacing" t_float [2%nat];
    P2 "echo_time" t_float;
    P2 "dyn_scan_begin_time" t_float;
    P2 "trigger_time" t_float;
    P2 "diffusion_b_factor" t_float;
    P2 "number of averages" t_int;
    P2 "image_flip_angle" t_float;
    P2 "cardiac frequency" t_int;
    P2 "minimum RR-interval" t_int;
    P2 "maximum RR-interval" t_int;
    P2 "TURBO factor" t_int;
    P2 "Inversion delay" t_float;
    P2 "diffusion b value number" t_int;      (* (imagekey!) *)
    P2 "gradient orientation number" t_int;   (* (imagekey!) *)
    P2 "contrast type" t_S30;                 (* XXX might be too short? *)
    P2 "diffusion anisotropy type" t_S30;     (* XXX might be too short? *)
    P3 "diffusion" t_float [3%nat];
    P2 "label type" t_int ].                  (* (imagekey!) *)

Close Scope string_scope.

(* ================================================================== *)
(** * parse_PAR_header *)

(** What a header entry or a field of an image definition holds. *)
Inductive value : Type :=
| VStr (s : string)
| VInt (z : Z)
| VFloat (f : float)
| VInts (l : list Z)
| VFloats (l : list float).

(** [d[key] = v] *)
Fixpoint dict_set {V} (d : list (string * V)) (key : string) (v : V)
  : list (string * V) :=
  match d with
  | [] => [(key, v)]
  | (k, w) :: d' =>
      if (k =? key)%string then (k, v) :: d' else (k, w) :: dict_set d' key v
  end.

(** [value.shape = shape]: the size has to be the product of the shape. *)
Definition set_shape (v : value) (shape : list nat) : result value :=
  let size := match v with
              | VInts l => List.length l
              | VFloats l => List.length l
              | _ => 1%nat
              end in
  if (size =? np_prod shape)%nat then OK v else Raise ValueError.

(** Storing an array into a field of [n] elements: numpy takes [n] values,
    or broadcasts one value. *)
Definition broadcast_to {A} (n : nat) (l : list A) : result (list A) :=
  if (List.length l =? n)%nat then OK l
  else match l with
       | [x] => OK (repeat x n)
       | _ => Raise ValueError
       end.

Definition store_array (nelements : nat) (v : value) : result value :=
  match v with
  | VInts l => l' <- broadcast_to nelements l ;; OK (VInts l')
  | VFloats l => l' <- broadcast_to nelements l ;; OK (VFloats l')
  | _ => OK v
  end.

(** [image_defs[name].dtype], where the dtype of [image_defs] is
    [image_def_dtype = np.dtype(image_def_dtd)] *)
Fixpoint field_dtype (dtd : list props) (name : string) : option pytype :=
  match dtd with
  | [] => None
  | p :: dtd' =>
      if (props_name p =? name)%string
      then match p with
           | P1 _ => None
           | P2 _ t | P3 _ t _ => Some t
           end
      else field_dtype dtd' name
  end.

Section Parser.

(** Python's and numpy's readers of numbers are not part of this file.
    [int(s)] and [float(s)] give a number or raise ValueError;
    [np.fromstring(s, dtype, sep=' ')] gives the numbers it could read. *)
Variable py_int : string -> option Z.
Variable py_float : string -> option float.
Variable np_fromstring_int : string -> list Z.
Variable np_fromstring_float : string -> list float.

(** [dtype(s)] for an entry [dtype] of a schema *)
Definition call_dtype (dtype : pytype) (s : string) : result value :=
  match dtype with
  | t_int =>
      match py_int s with
      | Some z => OK (VInt z)
      | None => Raise ValueError
      end
  | t_float =>
      match py_float s with
      | Some f => OK (VFloat f)
      | None => Raise ValueError
      end
  | t_S30 => Raise TypeError   (* a str is not callable *)
  end.

(** [np.fromstring(s, dtype, sep=' ')] *)
Definition np_fromstring (s : string) (dtype : pytype) : result value :=
  match dtype with
  | t_int => OK (VInts (np_fromstring_int s))
  | t_float => OK (VFloats (np_fromstring_float s))
  | t_S30 => Raise ValueError  (* no text reader for that array type *)
  end.

(** The body of [elif line.startswith('.')]. *)
Definition read_general_info (general_info : list (string * value))
    (line : string) : result (list (string * value)) :=
  let first_colon := find (slice_from line 1) ":" + 1 in
  let key := strip (slice line 1 first_colon) in
  let value := strip (slice_from line (first_colon + 1)) in
  match dict_get _hdr_key_dict key with
  | None => Raise KeyError
  | Some props =>
      v <- match props with
           | P2 _ dtype => call_dtype dtype value
           | P3 _ dtype shape =>
               a <- np_fromstring value dtype ;; set_shape a shape
           | P1 _ => OK (VStr value)
           end ;;
      OK (dict_set general_info (props_name props) v)
  end.

(** The single pass through the header.  A version that is not among
    [supported_versions] is a warning only and leaves no trace here. *)
Fixpoint read_lines (fobj : list string)
    (general_info : list (string * value)) (image_info : list string)
  : result (list (string * value) * list string) :=
  match fobj with
  | [] => OK (general_info, image_info)
  | line :: fobj' =>
      let line := strip line in
      if startswith line "#" then
        read_lines fobj' general_info image_info
      else if startswith line "." then
        general_info' <- read_general_info general_info line ;;
        read_lines fobj' general_info' image_info
      else if negb (is_empty line) then
        read_lines fobj' general_info (image_info ++ [line])
      else
        read_lines fobj' general_info image_info
  end.

(** The body of [for props in image_def_dtd] for one entry: the record
    being filled and [item_counter] before, and after. *)
Definition read_prop (items : list string)
    (st : list (string * value) * nat) (props : props)
  : result (list (string * value) * nat) :=
  let '(image_def, item_counter) := st in
  match field_dtype image_def_dtd (props_name props) with
  | None => Raise ValueError      (* no field of that name *)
  | Some column_dtype =>
      match column_dtype, props with
      | t_S30, _ =>
          (* simple string *)
          item <- getitem items item_counter ;;
          OK (image_def ++ [(props_name props,
                             VStr (String.substring 0 30 item))],
              (item_counter + 1)%nat)
      | _, P2 name dtype =>
          (* prop with numerical dtype *)
          match dtype with
          | t_S30 => Raise ZeroDivisionError
          | _ =>
              item <- getitem items item_counter ;;
              v <- call_dtype dtype item ;;
              OK (image_def ++ [(name, v)], (item_counter + 1)%nat)
          end
      | _, P3 name dtype shape =>
          (* array prop with dtype *)
          let nelements := np_prod shape in
          (* get as many elements as necessary *)
          let itms := firstn nelements (skipn item_counter items) in
          (* convert to array with dtype *)
          value <- np_fromstring (join_space itms) dtype ;;
          (* store *)
          v <- store_array nelements value ;;
          OK (image_def ++ [(name, v)], (item_counter + nelements)%nat)
      | _, P1 _ => OK st
      end
  end.

Fixpoint read_props (items : list string)
    (st : list (string * value) * nat) (dtd : list props)
  : result (list (string * value) * nat) :=
  match dtd with
  | [] => OK st
  | props :: dtd' =>
      st' <- read_prop items st props ;; read_props items st' dtd'
  end.

(** The body of [for i, line in enumerate(image_info)]. *)
Definition read_image_def (line : string)
  : result (list (string * value)) :=
  let items := split line in
  st <- read_props items ([], 0%nat) image_def_dtd ;;
  OK (fst st).

(** [parse_PAR_header(fobj)] *)
Definition parse_PAR_header (fobj : list string)
  : result (list (string * value) * list (list (string * value))) :=
  r <- read_lines fobj [] [] ;;
  let '(general_info, image_info) := r in
  image_defs <- mapM read_image_def image_info ;;
  OK (general_info, image_defs).

End Parser.

(** The tokens an entry of the image definition schema takes from a
    line, in the words of the specification: one for a scalar field, one
    for a fixed-length string field, the product of the shape for an array
    field. *)
Definition tokens_of (p : props) : nat :=
  match p with
  | P1 _ => 0
  | P2 _ _ => 1
  | P3 _ _ shape => np_prod shape
  end.

Definition tokens_required (dtd : list props) : nat :=
  fold_right (fun p n => (tokens_of p + n)%nat) 0%nat dtd.

(** The lines of the header file that [parse_PAR_header] keeps as image
    definitions. *)
Definition is_image_def_line (line : string) : bool :=
  let line := strip line in
  (negb (startswith line "#") && negb (startswith line ".")
   && negb (is_empty line))%bool.

(** An entry whose declared dtype is the dtype of its column, as in a
    schema without repeated names. *)
Definition declared_dtype (p : props) : option pytype :=
  match p with
  | P1 _ => None
  | P2 _ t | P3 _ t _ => Some t
  end.

Definition pytype_eqb (a b : pytype) : bool :=
  match a, b with
  | t_int, t_int | t_float, t_float | t_S30, t_S30 => true
  | _, _ => false
  end.

Definition column_as_declared (p : props) : bool :=
  match field_dtype image_def_dtd (props_name p), p with
  | Some t, P2 _ t' => pytype_eqb t t'
  | Some t, P3 _ t' _ => (pytype_eqb t t' && negb (pytype_eqb t t_S30))%bool
  | _, _ => false
  end.

(** A value of the kind and size an entry of the image definition
    schema declares: an integer, a float, at most 30 bytes, or an array
    of as many numbers as the shape has elements. *)
Definition value_fits (p : props) (v : value) : bool :=
  match p, v with
  | P2 _ t_int, VInt _ => true
  | P2 _ t_float, VFloat _ => true
  | P2 _ t_S30, VStr s => (String.length s <=? 30)%nat
  | P3 _ t_int shape, VInts l => (List.length l =? np_prod shape)%nat
  | P3 _ t_float shape, VFloats l => (List.length l =? np_prod shape)%nat
  | _, _ => false
  end.

(** The key and the text of a general information line: the local
    variables [key] and [value] of [parse_PAR_header]. *)
Definition general_info_key (line : string) : string :=
  strip (slice line 1 (find (slice_from line 1) ":" + 1)).

Definition general_info_text (line : string) : string :=
  strip (slice_from line (find (slice_from line 1) ":" + 1 + 1)).

(** The lines [parse_PAR_header] passes over: comments and blank lines. *)
Definition is_skipped_line (line : string) : bool :=
  let line := strip line in
  (startswith line "#" || is_empty line)%bool.

(* ================================================================== *)
(** * Concrete headers and readers *)

Module Examples.

(** General information of a series with the given maxima; one
    diffusion value, one gradient orientation. *)
Definition info (slices dynamics echoes : Z) : GeneralInfo :=
  {| max_echoes := echoes; max_slices := slices;
     max_dynamics := dynamics;
     repetition_time := 2000%float;
     angulation := (0, 0, 0)%float;
     off_center := (2.5, -0.75, -8.5)%float;
     max_diffusion_values := 1; max_gradient_orient := 1 |}.

(** An image definition: 16 bit pixels, scale slope 2.0, rescale slope
    1.5, slice thickness 6.0, slice gap 2.0, pixel spacing 3.75 x 3.75. *)
Definition image (slice echo dynamic : Z) (recon : Z * Z)
    (intercept : float) (orientation : Z) : image_def :=
  {| slice_number := slice; echo_number := echo;
     dynamic_scan_number := dynamic;
     image_pixel_size := 16;
     recon_resolution := recon;
     rescale_intercept := intercept;
     rescale_slope := 1.5%float;
     scale_slope := 2%float;
     image_angulation := (0, 0, 0)%float;
     slice_thickness := 6%float;
     slice_gap := 2%float;
     slice_orientation := orientation;
     pixel_spacing := (3.75, 3.75)%float |}.

(** Three transverse slices of 64 x 64, one dynamic, one echo. *)
Definition three_slices : list image_def :=
  [ image 1 1 1 (64, 64) 0%float 1;
    image 2 1 1 (64, 64) 0%float 1;
    image 3 1 1 (64, 64) 0%float 1 ].

(** Two slices of 64 x 128: one combination of recon resolution. *)
Definition two_slices_64x128 : list image_def :=
  [ image 1 1 1 (64, 128) 0%float 1;
    image 2 1 1 (64, 128) 0%float 1 ].

(** Three slices, the third with another recon resolution. *)
Definition third_slice_differs : list image_def :=
  [ image 1 1 1 (64, 64) 0%float 1;
    image 2 1 1 (64, 64) 0%float 1;
    image 3 1 1 (128, 128) 0%float 1 ].

(** Two slices, two dynamics and two echoes, in a header that announces
    five slices. *)
Definition two_axes_vary : list image_def :=
  [ image 1 1 1 (64, 64) 0%float 1;
    image 2 1 1 (64, 64) 0%float 1;
    image 1 2 2 (64, 64) 0%float 1;
    image 2 2 2 (64, 64) 0%float 1 ].

(** Three slices at each of five dynamics. *)
Definition five_dynamics : list image_def :=
  flat_map (fun d => [ image 1 1 d (64, 64) 0%float 1;
                       image 2 1 d (64, 64) 0%float 1;
                       image 3 1 d (64, 64) 0%float 1 ])
           [1; 2; 3; 4; 5].

(** Three slices with rescale intercept 3.0. *)
Definition intercept_three : list image_def :=
  [ image 1 1 1 (64, 64) 3%float 1;
    image 2 1 1 (64, 64) 3%float 1;
    image 3 1 1 (64, 64) 3%float 1 ].

(** Three slices with the slice orientation code 4. *)
Definition orientation_four : list image_def :=
  [ image 1 1 1 (64, 64) 0%float 4;
    image 2 1 1 (64, 64) 0%float 4;
    image 3 1 1 (64, 64) 0%float 4 ].


(** An image definition as [image], with the pixel spacing given. *)
Definition image_spaced (slice : Z) (spacing : float * float)
  : image_def :=
  {| slice_number := slice; echo_number := 1;
     dynamic_scan_number := 1;
     image_pixel_size := 16;
     recon_resolution := (64, 64);
     rescale_intercept := 0%float;
     rescale_slope := 1.5%float;
     scale_slope := 2%float;
     image_angulation := (0, 0, 0)%float;
     slice_thickness := 6%float;
     slice_gap := 2%float;
     slice_orientation := 1;
     pixel_spacing := spacing |}.

(** Three slices with three pixel spacings. *)
Definition spacing_varies : list image_def :=
  [ image_spaced 1 (3.75, 3.75)%float;
    image_spaced 2 (2.5, 2.5)%float;
    image_spaced 3 (9, 1)%float ].

(** Three slices with the one pixel spacing 3.75 x 2.5. *)
Definition spacing_not_square : list image_def :=
  [ image_spaced 1 (3.75, 2.5)%float;
    image_spaced 2 (3.75, 2.5)%float;
    image_spaced 3 (3.75, 2.5)%float ].

(** The header [__init__] constructs from a table, when it does. *)
Definition header_of (defs : list image_def) : PARRECHeader :=
  set_base (new_header (info 3 1 1) defs "dv") 16 [64; 64; 3]
              [3.75; 3.75; 8]%float.

(** The rotation for angulation 0, 0, 0. *)
Definition no_rotation (z y x : float) : mat3 := np_eye3.

(** Readers of decimal integer literals: what [int], [float] and
    [np.fromstring] give on them. *)
Definition digit_of (c : ascii) : option Z :=
  let n := nat_of_ascii c in
  if ((48 <=? n) && (n <=? 57))%nat then Some (Z.of_nat (n - 48))
  else None.

Fixpoint digits (acc : Z) (s : string) : option Z :=
  match s with
  | EmptyString => Some acc
  | String c s' =>
      match digit_of c with
      | Some d => digits (10 * acc + d) s'
      | None => None
      end
  end.

Definition dec_int (s : string) : option Z :=
  match s with
  | EmptyString => None
  | String "-" s' =>
      if is_empty s' then None else option_map Z.opp (digits 0 s')
  | _ => digits 0 s
  end.

Definition dec_float (s : string) : option float :=
  option_map float_of_Z (dec_int s).

Fixpoint read_while {A} (f : string -> option A) (tokens : list string)
  : list A :=
  match tokens with
  | [] => []
  | t :: tokens' =>
      match f t with
      | Some x => x :: read_while f tokens'
      | None => []
      end
  end.

Definition fromstring_int (s : string) : list Z :=
  read_while dec_int (split s).

Definition fromstring_float (s : string) : list float :=
  read_while dec_float (split s).

Definition parse : list string ->
    result (list (string * value) * list (list (string * value))) :=
  parse_PAR_header dec_int dec_float fromstring_int fromstring_float.

Definition read_def : string -> result (list (string * value)) :=
  read_image_def dec_int dec_float fromstring_int fromstring_float.

(** An image definition line of 49 tokens, a general information
    line, and a file with both. *)
Definition image_line : string :=
  "1 1 1 1 0 2 0 16 62 64 64 0 1 4 1070 1860 -13 0 0 2 0 -8 6 2 0 1 0 2 3 3 30 0 0 0 0 90 0 0 0 39 0 1 1 8 0 0 0 0 1".

Definition slices_line : string :=
  ".    Max. number of slices/locations    :   3".

Definition par_file : list string :=
  [ "# === GENERAL INFORMATION ==="%string; slices_line;
    EmptyString; image_line; "  "%string; image_line ].

End Examples.

(* ================================================================== *)
(** * Properties of the uniqueness check *)

Lemma bind_OK_inv {A B} (r : result A) (k : A -> result B) (b : B) :
  (x <- r ;; k x) = OK b -> exists a, r = OK a /\ k a = OK b.
Proof.
  destruct r as [a | e]; simpl; intros Hk.
  - exists a. split; [reflexivity | exact Hk].
  - discriminate Hk.
Qed.

Ltac bind_inv H :=
  let a := fresh "a" in
  let Ha := fresh "Ha" in
  apply bind_OK_inv in H; destruct H as (a & Ha & H).

(** A product of two lengths is one only when both are. *)
Lemma np_prod_two (a b : nat) :
  (np_prod [a; b] =? 1)%nat = ((a =? 1) && (b =? 1))%nat.
Proof.
  unfold np_prod; simpl. rewrite Nat.mul_1_r.
  destruct (Nat.eqb_spec (a * b) 1) as [E | E];
    destruct (Nat.eqb_spec a 1) as [Ea | Ea];
    destruct (Nat.eqb_spec b 1) as [Eb | Eb]; simpl;
    try reflexivity; exfalso; nia.
Qed.

Section UniqueFacts.
Context {A : Type} `{Dtype A}.
Variable self : PARRECHeader.
Variable name : field A.

(** On a scalar column the check looks at the whole column. *)
Lemma unique_scalar_column (l : list A) :
  column (image_defs self) name = Arr1 l ->
  _get_unique_image_prop self name =
    match np_unique l with
    | [x] => OK [x]
    | _ => Raise PARRECError
    end.
Proof.
  intros Hcol. unfold _get_unique_image_prop. rewrite Hcol. simpl.
  destruct (np_unique l) as [| x [| y u]]; reflexivity.
Qed.

(** On an array column the check looks at the first two records of the
    table, one [np.unique] for each, and at nothing else. *)
Lemma unique_array_column (rows : list (list A)) :
  column (image_defs self) name = Arr2 rows ->
  _get_unique_image_prop self name =
    match rows with
    | r0 :: r1 :: _ =>
        match np_unique r0, np_unique r1 with
        | [x], [y] => OK [x; y]
        | _, _ => Raise PARRECError
        end
    | _ => Raise IndexError
    end.
Proof.
  intros Hcol. unfold _get_unique_image_prop. rewrite Hcol.
  destruct rows as [| r0 [| r1 rows]]; try reflexivity.
  cbn [ndim_of seq mapM getitem nth_error bind map].
  rewrite np_prod_two.
  destruct (np_unique r0) as [| x [| x' u0]];
    destruct (np_unique r1) as [| y [| y' u1]]; reflexivity.
Qed.

End UniqueFacts.

(** Every column is of one of the two kinds. *)
Lemma column_kind {A} (defs : list image_def) (name : field A) :
  (exists l, column defs name = Arr1 l /\ List.length l = List.length defs)
  \/ (exists rows, column defs name = Arr2 rows
                   /\ List.length rows = List.length defs).
Proof.
  destruct name; simpl;
    first [ left; eexists; split; [reflexivity | apply length_map]
          | right; eexists; split; [reflexivity | apply length_map] ].
Qed.

(** A check that passes gives one value for a scalar field. *)
Lemma unique_scalar_result {A} `{Dtype A} self (name : field A) l u :
  column (image_defs self) name = Arr1 l ->
  _get_unique_image_prop self name = OK u ->
  exists x, u = [x] /\ np_unique l = [x].
Proof.
  intros Hcol Hu. rewrite (unique_scalar_column _ _ Hcol) in Hu.
  destruct (np_unique l) as [| x [| y t]]; try discriminate Hu.
  injection Hu as <-. exists x. split; reflexivity.
Qed.

(** A check that passes gives two values for an array field, whatever
    the number of elements of the field. *)
Lemma unique_array_result {A} `{Dtype A} self (name : field A) rows u :
  column (image_defs self) name = Arr2 rows ->
  _get_unique_image_prop self name = OK u ->
  exists x y r0 r1 rest,
    u = [x; y] /\ rows = r0 :: r1 :: rest
    /\ np_unique r0 = [x] /\ np_unique r1 = [y].
Proof.
  intros Hcol Hu. rewrite (unique_array_column _ _ Hcol) in Hu.
  destruct rows as [| r0 [| r1 rest]]; try discriminate Hu.
  destruct (np_unique r0) as [| x [| x' u0]] eqn:E0; try discriminate Hu;
    destruct (np_unique r1) as [| y [| y' u1]] eqn:E1; try discriminate Hu.
  injection Hu as <-. exists x, y, r0, r1, rest. auto.
Qed.

(** C1 (the code departs from its docstring).  [_get_unique_image_prop]
    on the array field 'recon resolution': a table whose two records both
    have the one combination 64 x 128 raises PARRECError; a table whose
    third record has another combination than the first two passes and
    returns 64, 64; a table of one record raises IndexError. *)
Theorem unique_image_prop_reads_first_two_records :
  _get_unique_image_prop
    (new_header (Examples.info 2 1 1) Examples.two_slices_64x128 "dv")
    Recon_resolution = Raise PARRECError
  /\ _get_unique_image_prop
       (new_header (Examples.info 3 1 1) Examples.third_slice_differs "dv")
       Recon_resolution = OK [64; 64]
  /\ _get_unique_image_prop
       (new_header (Examples.info 1 1 1)
          [Examples.image 1 1 1 (64, 64) 0%float 1] "dv")
       Recon_resolution = Raise IndexError.
Proof. repeat split; vm_compute; reflexivity. Qed.

(* ================================================================== *)
(** * Scaling *)

(** C4.  When the uniqueness checks give scale slope SS, rescale slope RS
    and rescale intercept RI, [get_data_scaling] returns (RS, RI) for 'dv'
    and (1/SS, RI/(RS*SS)) for 'fp', as arrays of one element.  With
    SS = 2.0, RS = 1.5, RI = 0.0 these are (1.5, 0.0) and (0.5, 0.0); the
    stored value 10 becomes DV = 15.0 and FP = 5.0, and FP*(RS*SS) = DV. *)
Theorem get_data_scaling_dv_fp (self : PARRECHeader) (SS RS RI : float) :
  _get_unique_image_prop self Scale_slope = OK [SS] ->
  _get_unique_image_prop self Rescale_slope = OK [RS] ->
  _get_unique_image_prop self Rescale_intercept = OK [RI] ->
  get_data_scaling self "dv" = OK ([RS], [RI])
  /\ get_data_scaling self "fp" = OK ([1 / SS], [RI / (RS * SS)])%float
  /\ (SS = 2%float -> RS = 1.5%float -> RI = 0%float ->
      get_data_scaling self "dv" = OK ([1.5], [0])%float
      /\ get_data_scaling self "fp" = OK ([0.5], [0])%float
      /\ apply_read_scaling [10%float] RS RI = [15%float]
      /\ apply_read_scaling [10%float] (1 / SS) (RI / (RS * SS))
         = [5%float]
      /\ (5 * (RS * SS))%float = 15%float).
Proof.
  intros HSS HRS HRI.
  assert (Hdv : get_data_scaling self "dv" = OK ([RS], [RI])).
  { unfold get_data_scaling. rewrite HSS, HRS, HRI. reflexivity. }
  assert (Hfp : get_data_scaling self "fp"
                = OK ([1 / SS], [RI / (RS * SS)])%float).
  { unfold get_data_scaling. rewrite HSS, HRS, HRI. reflexivity. }
  split; [exact Hdv | split; [exact Hfp |]].
  intros -> -> ->. rewrite Hdv, Hfp.
  repeat split; vm_compute; reflexivity.
Qed.

Lemma get_data_scaling_dv_fp_witness :
  let self := new_header (Examples.info 3 1 1) Examples.three_slices "dv" in
  get_data_scaling self "dv" = OK ([1.5], [0])%float
  /\ get_data_scaling self "fp" = OK ([0.5], [0])%float.
Proof.
  intros self.
  destruct (@get_data_scaling_dv_fp self 2 1.5 0)%float
    as (Hdv & Hfp & Hex);
    [vm_compute; reflexivity .. |].
  destruct (Hex eq_refl eq_refl eq_refl) as (H1 & H2 & _).
  split; [exact H1 | exact H2].
Defined.

(** The default slope and intercept are those of the configured method. *)
Lemma get_slope_inter_spec (self : PARRECHeader) (slope inter : float) :
  get_data_scaling self (default_scaling self) = OK ([slope], [inter]) ->
  get_slope_inter self = OK (slope, inter).
Proof. intros Hs. unfold get_slope_inter. rewrite Hs. reflexivity. Qed.

(** What the base class has accepted. *)
Lemma Header_init_inv self dtype shape zooms h :
  Header_init self dtype shape zooms = OK h ->
  h = set_base self dtype (match shape with [] => [0] | _ => shape end)
        zooms
  /\ List.length zooms
     = List.length (match shape with [] => [0] | _ => shape end)
  /\ existsb (fun z => PrimFloat.ltb z 0) zooms = false.
Proof.
  unfold Header_init.
  destruct (Nat.eqb_spec (List.length zooms)
              (List.length (match shape with [] => [0] | _ => shape end)))
    as [Hlen | Hlen]; simpl; [| discriminate].
  destruct (existsb _ zooms); [discriminate |].
  intros Hh. injection Hh as <-. auto.
Qed.

(** [__init__] keeps its three arguments. *)
Lemma init_fields info defs scaling h :
  __init__ info defs scaling = OK h ->
  general_info h = info /\ image_defs h = defs
  /\ default_scaling h = scaling /\ _slice_orientation h = None.
Proof.
  unfold __init__. intros Hh.
  repeat bind_inv Hh. apply Header_init_inv in Hh.
  destruct Hh as (-> & _). simpl. auto.
Qed.

(** A copy has the default scaling 'dv', whatever the original has. *)
Lemma copy_default_scaling (self h : PARRECHeader) :
  copy self = OK h -> default_scaling h = "dv"%string.
Proof. intros Hc. apply init_fields in Hc. tauto. Qed.

(** A header constructed for 'dv' and its copy have one default scaling. *)
Lemma copy_of_dv_header info defs self h :
  __init__ info defs "dv" = OK self -> copy self = OK h -> h = self.
Proof.
  intros Hi Hc. unfold copy in Hc.
  destruct (init_fields _ _ _ Hi) as (Hinfo & Hdefs & _).
  rewrite Hinfo, Hdefs, Hi in Hc. injection Hc as <-. reflexivity.
Qed.

(** C9 (the code misses the claim).  A header constructed with
    default_scaling 'fp' from scale slope 2.0, rescale slope 1.5 and
    rescale intercept 3.0 has slope and intercept (0.5, 1.0); its copy has
    (1.5, 3.0), those of 'dv'. *)
Theorem copy_loses_default_scaling :
  exists h h' : PARRECHeader,
    __init__ (Examples.info 3 1 1) Examples.intercept_three "fp" = OK h
    /\ get_slope_inter h = OK (0.5, 1)%float
    /\ copy h = OK h'
    /\ get_slope_inter h' = OK (1.5, 3)%float.
Proof.
  eexists. eexists.
  split; [vm_compute; reflexivity |].
  split; [vm_compute; reflexivity |].
  split; vm_compute; reflexivity.
Qed.

(* ================================================================== *)
(** * Shape *)

Lemma gt1_true (x : Z) : gt1 x = true <-> 1 < x.
Proof. unfold gt1. apply Z.ltb_lt. Qed.

Lemma gt1_false (x : Z) : gt1 x = false <-> x <= 1.
Proof. unfold gt1. rewrite Z.ltb_ge. reflexivity. Qed.

(** [get_data_shape_in_file] in terms of its local variables. *)
Lemma get_data_shape_in_file_unfold (self : PARRECHeader) :
  get_data_shape_in_file self =
    if negb (nslices self =? max_slices (general_info self))
    then Raise PARRECError
    else if (1 <? List.length
                    (filter gt1 [ndynamics self; ndtivolumes self;
                                 nechos self]))%nat
    then Raise RuntimeError
    else
      inplane_shape <- _get_unique_image_prop self Recon_resolution ;;
      OK (inplane_shape ++ [nslices self]
          ++ (if gt1 (ndynamics self) then [ndynamics self]
              else if gt1 (ndtivolumes self) then [ndtivolumes self]
              else if gt1 (nechos self) then [nechos self]
              else [])).
Proof.
  unfold get_data_shape_in_file, ndynamics, ndtivolumes, nslices, nechos.
  destruct (negb _); [reflexivity |].
  destruct (1 <? _)%nat; [reflexivity |].
  destruct (_get_unique_image_prop self Recon_resolution) as [u | e];
    [| reflexivity].
  simpl. repeat rewrite <- app_assoc.
  repeat match goal with |- context [if ?b then _ else _] =>
    destruct b end; reflexivity.
Qed.

(** The slice count comes first: a header whose count differs from
    max_slices gets PARRECError. *)
Lemma slice_mismatch_raises (self : PARRECHeader) :
  nslices self <> max_slices (general_info self) ->
  get_data_shape_in_file self = Raise PARRECError.
Proof.
  intros Hne. rewrite get_data_shape_in_file_unfold.
  apply Z.eqb_neq in Hne. rewrite Hne. reflexivity.
Qed.


(** A returned shape: two in-plane lengths, the slice count, and the one
    count above 1 when there is one. *)
Lemma data_shape_cases (self : PARRECHeader) (shape : list Z) :
  get_data_shape_in_file self = OK shape ->
  nslices self = max_slices (general_info self)
  /\ exists x y,
       _get_unique_image_prop self Recon_resolution = OK [x; y]
       /\ ((1 < ndynamics self /\ ndtivolumes self <= 1
            /\ nechos self <= 1
            /\ shape = [x; y; nslices self; ndynamics self])
        \/ (ndynamics self <= 1 /\ 1 < ndtivolumes self
            /\ nechos self <= 1
            /\ shape = [x; y; nslices self; ndtivolumes self])
        \/ (ndynamics self <= 1 /\ ndtivolumes self <= 1
            /\ 1 < nechos self
            /\ shape = [x; y; nslices self; nechos self])
        \/ (ndynamics self <= 1 /\ ndtivolumes self <= 1
            /\ nechos self <= 1
            /\ shape = [x; y; nslices self])).
Proof.
  rewrite get_data_shape_in_file_unfold.
  destruct (nslices self =? max_slices (general_info self)) eqn:Es;
    simpl; [| discriminate].
  apply Z.eqb_eq in Es. intros Hshape. split; [exact Es |].
  destruct (_get_unique_image_prop self Recon_resolution) as [u | e] eqn:Eu.
  2:{ destruct (gt1 (ndynamics self)), (gt1 (ndtivolumes self)),
        (gt1 (nechos self)); discriminate Hshape. }
  destruct (unique_array_result self Recon_resolution eq_refl Eu)
    as (x & y & _ & _ & _ & -> & _).
  exists x, y. split; [reflexivity |].
  destruct (gt1 (ndynamics self)) eqn:Ed;
    destruct (gt1 (ndtivolumes self)) eqn:Et;
    destruct (gt1 (nechos self)) eqn:Ee; simpl in Hshape;
    try discriminate Hshape;
    injection Hshape as <-;
    rewrite ?gt1_true, ?gt1_false in *.
  - left. auto.
  - right; left. auto.
  - right; right; left. auto.
  - right; right; right. auto.
Qed.




(** C5.  [get_data_shape_in_file] raises PARRECError whenever the number
    of distinct slice numbers differs from max_slices; so whenever it
    returns, and in every header [__init__] has constructed, the two are
    equal. *)
Theorem slice_count_is_max_slices (self : PARRECHeader) :
  (nslices self <> max_slices (general_info self) ->
   get_data_shape_in_file self = Raise PARRECError)
  /\ (forall shape, get_data_shape_in_file self = OK shape ->
      nslices self = max_slices (general_info self))
  /\ (forall info defs scaling, __init__ info defs scaling = OK self ->
      nslices self = max_slices (general_info self)).
Proof.
  split; [apply slice_mismatch_raises |]. split.
  - intros shape Hshape. apply (data_shape_cases self Hshape).
  - intros info defs scaling Hinit.
    destruct (init_fields _ _ _ Hinit) as (Hinfo & Hdefs & _).
    unfold __init__ in Hinit. repeat bind_inv Hinit.
    match goal with
    | Hsh : get_data_shape_in_file _ = OK _ |- _ =>
        apply data_shape_cases in Hsh; destruct Hsh as (Hsh & _);
        unfold nslices in *; simpl in Hsh
    end.
    rewrite Hinfo, Hdefs. assumption.
Qed.

Lemma slice_count_is_max_slices_witness :
  get_data_shape_in_file
    (new_header (Examples.info 5 2 2) Examples.two_axes_vary "dv")
  = Raise PARRECError
  /\ nslices (new_header (Examples.info 3 1 1) Examples.three_slices "dv")
     = max_slices (Examples.info 3 1 1).
Proof.
  split.
  - apply (proj1 (slice_count_is_max_slices _)).
    vm_compute. discriminate.
  - apply (proj1 (proj2 (slice_count_is_max_slices
                            (new_header (Examples.info 3 1 1)
                               Examples.three_slices "dv")))
             [64; 64; 3]).
    vm_compute. reflexivity.
Defined.

(* ================================================================== *)
(** * Voxel size and zooms *)

Lemma get_ndim_cases (self : PARRECHeader) :
  get_ndim self = 3%nat \/ get_ndim self = 4%nat.
Proof. unfold get_ndim. destruct (_ || _)%bool; auto. Qed.

(** Voxel size and zooms from what the checks return.  When the
    uniqueness checks give slice thickness [t], pixel spacing [px], [py]
    and slice gap [g]: [get_voxel_size] returns
    (px, py, t), without the gap; [_get_zooms] returns (px, py, t + g),
    followed for a 4-dimensional header by repetition_time / 1000 when
    max_dynamics > 1 and by 1.0 otherwise. *)
Theorem voxel_size_and_zooms (self : PARRECHeader) (t px py g : float) :
  _get_unique_image_prop self Slice_thickness = OK [t] ->
  _get_unique_image_prop self Pixel_spacing = OK [px; py] ->
  _get_unique_image_prop self Slice_gap = OK [g] ->
  get_voxel_size self = OK [px; py; t]
  /\ _get_zooms self
     = OK ([px; py; (t + g)%float]
           ++ (if (get_ndim self =? 4)%nat
               then [if gt1 (max_dynamics (general_info self))
                     then (repetition_time (general_info self) / 1000)%float
                     else 1%float]
               else [])).
Proof.
  intros Ht Hp Hg.
  assert (Hv : get_voxel_size self = OK [px; py; t]).
  { unfold get_voxel_size. rewrite Ht, Hp. reflexivity. }
  split; [exact Hv |].
  unfold _get_zooms. rewrite Hg, Hv.
  destruct (get_ndim_cases self) as [-> | ->]; simpl.
  - reflexivity.
  - destruct (gt1 (max_dynamics (general_info self))); reflexivity.
Qed.

Lemma voxel_size_and_zooms_witness :
  get_voxel_size
    (new_header (Examples.info 3 1 1) Examples.three_slices "dv")
  = OK [3.75; 3.75; 6]%float
  /\ _get_zooms
       (new_header (Examples.info 3 1 1) Examples.three_slices "dv")
     = OK [3.75; 3.75; 8]%float
  /\ _get_zooms
       (new_header (Examples.info 3 5 1) Examples.five_dynamics "dv")
     = OK [3.75; 3.75; 8; 2]%float.
Proof.
  split; [| split].
  - apply (@voxel_size_and_zooms
             (new_header (Examples.info 3 1 1) Examples.three_slices "dv")
             6 3.75 3.75 2)%float; vm_compute; reflexivity.
  - apply (@voxel_size_and_zooms
             (new_header (Examples.info 3 1 1) Examples.three_slices "dv")
             6 3.75 3.75 2)%float; vm_compute; reflexivity.
  - apply (@voxel_size_and_zooms
             (new_header (Examples.info 3 5 1) Examples.five_dynamics "dv")
             6 3.75 3.75 2)%float; vm_compute; reflexivity.
Defined.

(** The checks of [get_voxel_size] and [_get_zooms], when they pass,
    give values of exactly that form. *)
Lemma zooms_checks_pass (self : PARRECHeader) (zooms : list float) :
  _get_zooms self = OK zooms ->
  exists t px py g,
    _get_unique_image_prop self Slice_thickness = OK [t]
    /\ _get_unique_image_prop self Pixel_spacing = OK [px; py]
    /\ _get_unique_image_prop self Slice_gap = OK [g].
Proof.
  unfold _get_zooms, get_voxel_size. intros Hz.
  destruct (_get_unique_image_prop self Slice_gap) as [ug | e] eqn:Eg;
    [| discriminate Hz].
  destruct (unique_scalar_result self Slice_gap eq_refl Eg)
    as (g & -> & _).
  simpl in Hz.
  destruct (_get_unique_image_prop self Slice_thickness) as [ut | e]
    eqn:Et; [| discriminate Hz].
  destruct (unique_scalar_result self Slice_thickness eq_refl Et)
    as (t & -> & _).
  simpl in Hz.
  destruct (_get_unique_image_prop self Pixel_spacing) as [up | e]
    eqn:Ep; [| discriminate Hz].
  destruct (unique_array_result self Pixel_spacing eq_refl Ep)
    as (px & py & _ & _ & _ & -> & _).
  exists t, px, py, g. auto.
Qed.

(** What [get_voxel_size] returns, in terms of the table: the in-plane
    entries are the one value of the pixel spacing of the first record
    and the one value of the pixel spacing of the second record; no
    other record is read for them. *)
Lemma voxel_size_from_records (self : PARRECHeader) (v : list float) :
  get_voxel_size self = OK v ->
  exists d0 d1 rest x y t,
    image_defs self = d0 :: d1 :: rest
    /\ v = [x; y; t]
    /\ np_unique (pair_list (pixel_spacing d0)) = [x]
    /\ np_unique (pair_list (pixel_spacing d1)) = [y]
    /\ np_unique (map slice_thickness (image_defs self)) = [t].
Proof.
  unfold get_voxel_size. intros Hv.
  destruct (_get_unique_image_prop self Slice_thickness) as [ut | e]
    eqn:Et; [| discriminate Hv].
  destruct (unique_scalar_result self Slice_thickness eq_refl Et)
    as (t & -> & Hut).
  cbn [getitem nth_error bind] in Hv.
  destruct (_get_unique_image_prop self Pixel_spacing) as [up | e]
    eqn:Ep; [| discriminate Hv].
  destruct (unique_array_result self Pixel_spacing eq_refl Ep)
    as (x & y & r0 & r1 & rows & -> & Hrows & H0 & H1).
  cbn [getitem nth_error bind] in Hv. injection Hv as <-.
  destruct (image_defs self) as [| d0 [| d1 rest]] eqn:Ed;
    try discriminate Hrows.
  simpl in Hrows. injection Hrows as <- <- _.
  exists d0, d1, rest, x, y, t. auto 10.
Qed.

(** C6 (the code misses the claim, by the defect of C1).  A table whose
    three records have the pixel spacings 3.75 x 3.75, 2.5 x 2.5 and
    9 x 1 passes the checks: the header is constructed, its voxel size is
    (3.75, 2.5, 6.0) and its zooms are (3.75, 2.5, 8.0), the pixel
    spacing of no record.  A table whose three records have the one pixel
    spacing 3.75 x 2.5 raises PARRECError. *)
Theorem voxel_size_of_no_record :
  (exists h,
     __init__ (Examples.info 3 1 1) Examples.spacing_varies "dv" = OK h
     /\ get_voxel_size h = OK [3.75; 2.5; 6]%float
     /\ get_zooms h = [3.75; 2.5; 8]%float
     /\ forall d, In d Examples.spacing_varies ->
                  pixel_spacing d <> (3.75, 2.5)%float)
  /\ get_voxel_size
       (new_header (Examples.info 3 1 1) Examples.spacing_not_square "dv")
     = Raise PARRECError
  /\ __init__ (Examples.info 3 1 1) Examples.spacing_not_square "dv"
     = Raise PARRECError.
Proof.
  split; [| split; vm_compute; reflexivity].
  eexists. split; [vm_compute; reflexivity |].
  split; [vm_compute; reflexivity |].
  split; [vm_compute; reflexivity |].
  intros d [<- | [<- | [<- | []]]]; intros Heq;
    apply (f_equal (fun p => (PrimFloat.eqb (fst p) 3.75
                              && PrimFloat.eqb (snd p) 2.5)%bool)) in Heq;
    vm_compute in Heq; discriminate Heq.
Qed.

(* ================================================================== *)
(** * Slice orientation and affine *)



(** What [get_slice_orientation] leaves in the header. *)
Lemma get_slice_orientation_keeps (self h : PARRECHeader) (label : string) :
  get_slice_orientation self = OK (label, h) ->
  _slice_orientation h = Some label
  /\ general_info h = general_info self
  /\ image_defs h = image_defs self
  /\ default_scaling h = default_scaling self
  /\ base h = base self.
Proof.
  unfold get_slice_orientation.
  destruct (_slice_orientation self) as [l |] eqn:Ec; intros Hg.
  - injection Hg as <- <-. auto.
  - repeat bind_inv Hg. injection Hg as <- <-. simpl. auto.
Qed.

Lemma get_slice_orientation_cached (self : PARRECHeader) (label : string) :
  _slice_orientation self = Some label ->
  get_slice_orientation self = OK (label, self).
Proof. intros Hc. unfold get_slice_orientation. rewrite Hc. reflexivity. Qed.

Section AffineFacts.
Variable euler2mat : float -> float -> float -> mat3.


End AffineFacts.



(** The table of codes, as a case distinction. *)
Lemma Recoder_label_codes (code : Z) :
  Recoder_label slice_orientation_codes code =
    if code =? 1 then OK "transverse"%string
    else if code =? 2 then OK "sagittal"%string
    else if code =? 3 then OK "coronal"%string
    else Raise KeyError.
Proof.
  unfold Recoder_label, slice_orientation_codes.
  rewrite (Z.eqb_sym 1), (Z.eqb_sym 2), (Z.eqb_sym 3). reflexivity.
Qed.


(** The check reads the table only. *)
Lemma unique_same_table {A} `{Dtype A} (h h' : PARRECHeader)
    (name : field A) :
  image_defs h' = image_defs h ->
  _get_unique_image_prop h' name = _get_unique_image_prop h name.
Proof. intros Hd. unfold _get_unique_image_prop. rewrite Hd. reflexivity. Qed.

Lemma init_inv info defs scaling h :
  __init__ info defs scaling = OK h -> header_inv h.
Proof.
  intros Hinit. split.
  - unfold __init__ in Hinit. repeat bind_inv Hinit.
    apply Header_init_inv in Hinit. destruct Hinit as (-> & _).
    unfold get_data_shape. simpl.
    match goal with
    | Hsh : get_data_shape_in_file _ = OK _ |- _ =>
        destruct (data_shape_cases _ Hsh)
          as (_ & x & y & _ & [Hc | [Hc | [Hc | Hc]]])
    end;
      destruct Hc as (_ & _ & _ & ->); eauto.
  - intros label Hl. apply init_fields in Hinit.
    destruct Hinit as (_ & _ & _ & Hnone). congruence.
Qed.

Lemma get_slice_orientation_inv h label h' :
  header_inv h -> get_slice_orientation h = OK (label, h') ->
  header_inv h'.
Proof.
  intros (Hshape & Hcache) Hg.
  destruct (get_slice_orientation_keeps _ Hg)
    as (Hl & _ & Hdefs & _ & Hbase).
  split.
  - unfold get_data_shape in *. rewrite Hbase. exact Hshape.
  - intros label' Hl'. rewrite Hl in Hl'. injection Hl' as <-.
    rewrite (unique_same_table _ _ _ Hdefs).
    unfold get_slice_orientation in Hg.
    destruct (_slice_orientation h) as [l |] eqn:Ec.
    + injection Hg as <- <-. apply Hcache. reflexivity.
    + bind_inv Hg.
      destruct (unique_scalar_result h Slice_orientation eq_refl Ha)
        as (code & -> & _).
      cbn [getitem nth_error bind] in Hg. bind_inv Hg.
      injection Hg as <- _.
      exists code. split; assumption.
Qed.

Section Reachable.
Variable euler2mat : float -> float -> float -> mat3.

Lemma get_affine_header h origin aff h' :
  get_affine euler2mat h origin = OK (aff, h') ->
  exists label, get_slice_orientation h = OK (label, h').
Proof.
  unfold get_affine. intros Hg.
  bind_inv Hg. bind_inv Hg. destruct a0 as [label h0].
  cbn [fst snd] in Hg.
  destruct (dict_get ACQ_TO_PSL label); [| discriminate Hg].
  destruct (angulation (general_info h0)) as [[ap fh] rl].
  bind_inv Hg. injection Hg as _ <-.
  exists label. assumption.
Qed.

(** A second call on the header the first call leaves behaves as on the
    header before: the label kept is the label computed. *)
Lemma get_affine_again h origin aff h' origin' :
  get_affine euler2mat h origin = OK (aff, h') ->
  get_affine euler2mat h' origin' = get_affine euler2mat h origin'.
Proof.
  intros Hg. destruct (get_affine_header _ _ Hg) as (label & Hl).
  destruct (get_slice_orientation_keeps _ Hl)
    as (Hc & Hinfo & _ & _ & Hbase).
  unfold get_affine, get_data_shape, get_zooms.
  rewrite Hbase, Hl, (get_slice_orientation_cached _ Hc).
  reflexivity.
Qed.

Lemma reachable_inv h : reachable euler2mat h -> header_inv h.
Proof.
  induction 1 as [info defs scaling h Hinit
                 | h label h' _ IH Hg
                 | h origin aff h' _ IH Hg].
  - exact (init_inv _ _ _ Hinit).
  - exact (get_slice_orientation_inv IH Hg).
  - destruct (get_affine_header _ _ Hg) as (label & Hl).
    exact (get_slice_orientation_inv IH Hl).
Qed.

(** With a code outside the table [get_slice_orientation] raises
    KeyError, and so does [get_affine], which has nothing fail before
    it. *)
Lemma unknown_code_raises h code origin :
  header_inv h ->
  _get_unique_image_prop h Slice_orientation = OK [code] ->
  code <> 1 -> code <> 2 -> code <> 3 ->
  get_slice_orientation h = Raise KeyError
  /\ get_affine euler2mat h origin = Raise KeyError.
Proof.
  intros (Hshape & Hcache) Hu H1 H2 H3.
  assert (Hlabel : Recoder_label slice_orientation_codes code
                   = Raise KeyError).
  { rewrite Recoder_label_codes.
    apply Z.eqb_neq in H1, H2, H3. rewrite H1, H2, H3. reflexivity. }
  assert (Hso : get_slice_orientation h = Raise KeyError).
  { unfold get_slice_orientation.
    destruct (_slice_orientation h) as [l |] eqn:Ec.
    - destruct (Hcache l eq_refl) as (code' & Hu' & Hl').
      rewrite Hu in Hu'. injection Hu' as <-. congruence.
    - rewrite Hu. cbn [getitem nth_error bind]. rewrite Hlabel.
      reflexivity. }
  split; [exact Hso |].
  unfold get_affine. destruct Hshape as (x & y & z & rest & ->).
  cbn [firstn map as_vec3 bind]. rewrite Hso. reflexivity.
Qed.

(** With a code of the table [get_slice_orientation] gives its label. *)
Lemma known_code_label h code label :
  header_inv h ->
  _get_unique_image_prop h Slice_orientation = OK [code] ->
  Recoder_label slice_orientation_codes code = OK label ->
  fmap fst (get_slice_orientation h) = OK label.
Proof.
  intros (_ & Hcache) Hu Hl. unfold get_slice_orientation.
  destruct (_slice_orientation h) as [l |] eqn:Ec.
  - destruct (Hcache l eq_refl) as (code' & Hu' & Hl').
    rewrite Hu in Hu'. injection Hu' as <-.
    rewrite Hl in Hl'. injection Hl' as <-. reflexivity.
  - rewrite Hu. cbn [getitem nth_error bind]. rewrite Hl. reflexivity.
Qed.

End Reachable.

(** C7.  For a header constructed by [__init__] (and passed through any
    calls of [get_slice_orientation] and [get_affine]) whose uniqueness
    check gives the slice orientation code [code]: outside 1, 2, 3,
    [get_affine] raises the KeyError of the code table, for either
    origin; the codes 1, 2, 3 resolve to transverse, sagittal and
    coronal. *)
Theorem unknown_orientation_code
    (euler2mat : float -> float -> float -> mat3)
    (h : PARRECHeader) (code : Z) :
  reachable euler2mat h ->
  _get_unique_image_prop h Slice_orientation = OK [code] ->
  (code <> 1 /\ code <> 2 /\ code <> 3 ->
   forall origin, get_affine euler2mat h origin = Raise KeyError)
  /\ (code = 1 ->
      fmap fst (get_slice_orientation h) = OK "transverse"%string)
  /\ (code = 2 ->
      fmap fst (get_slice_orientation h) = OK "sagittal"%string)
  /\ (code = 3 ->
      fmap fst (get_slice_orientation h) = OK "coronal"%string).
Proof.
  intros Hr Hu. apply reachable_inv in Hr.
  split; [| split; [| split]].
  - intros (H1 & H2 & H3) origin.
    apply (unknown_code_raises euler2mat origin Hr Hu H1 H2 H3).
  - intros ->. apply (known_code_label Hr Hu). reflexivity.
  - intros ->. apply (known_code_label Hr Hu). reflexivity.
  - intros ->. apply (known_code_label Hr Hu). reflexivity.
Qed.

Lemma unknown_orientation_code_witness :
  __init__ (Examples.info 3 1 1) Examples.orientation_four "dv"
  = OK (Examples.header_of Examples.orientation_four)
  /\ get_affine Examples.no_rotation
       (Examples.header_of Examples.orientation_four) "scanner"
     = Raise KeyError
  /\ fmap fst (get_slice_orientation
                 (Examples.header_of Examples.three_slices))
     = OK "transverse"%string.
Proof.
  assert (H4 : __init__ (Examples.info 3 1 1) Examples.orientation_four "dv"
               = OK (Examples.header_of Examples.orientation_four))
    by (vm_compute; reflexivity).
  assert (H1 : __init__ (Examples.info 3 1 1) Examples.three_slices "dv"
               = OK (Examples.header_of Examples.three_slices))
    by (vm_compute; reflexivity).
  split; [exact H4 | split].
  - apply (proj1 (@unknown_orientation_code Examples.no_rotation
                    (Examples.header_of Examples.orientation_four) 4
                    (reach_init _ _ _ _ H4) eq_refl)).
    repeat split; discriminate.
  - apply (proj1 (proj2 (@unknown_orientation_code Examples.no_rotation
                    (Examples.header_of Examples.three_slices) 1
                    (reach_init _ _ _ _ H1) eq_refl))).
    reflexivity.
Defined.

(* ================================================================== *)
(** * Reading image definition lines *)

Lemma getitem_short {A} (l : list A) (i : nat) :
  (List.length l <= i)%nat -> getitem l i = Raise IndexError.
Proof.
  intros Hle. unfold getitem.
  apply nth_error_None in Hle. rewrite Hle. reflexivity.
Qed.

Lemma getitem_raise {A} (l : list A) (i : nat) (e : exn) :
  getitem l i = Raise e -> e = IndexError.
Proof.
  unfold getitem. destruct (nth_error l i); intros He;
    [discriminate He | injection He as <-; reflexivity].
Qed.

Lemma broadcast_to_raise {A} (n : nat) (l : list A) (e : exn) :
  broadcast_to n l = Raise e -> e = ValueError.
Proof.
  unfold broadcast_to. destruct (_ =? _)%nat; [discriminate |].
  destruct l as [| x [| y l]]; intros He;
    try discriminate He; injection He as <-; reflexivity.
Qed.

Lemma store_array_raise (n : nat) (v : value) (e : exn) :
  store_array n v = Raise e -> e = ValueError.
Proof.
  destruct v; simpl; try discriminate;
    destruct (broadcast_to n l) eqn:Eb; simpl; try discriminate;
    intros He; injection He as <-; exact (broadcast_to_raise _ _ Eb).
Qed.

(** The schema declares every column with the dtype the column has, and
    no array of strings. *)
Lemma image_def_dtd_as_declared :
  forallb column_as_declared image_def_dtd = true.
Proof. vm_compute. reflexivity. Qed.

Lemma tokens_required_image_def_dtd :
  tokens_required image_def_dtd = 49%nat.
Proof. reflexivity. Qed.

Section ParserFacts.
Variable py_int : string -> option Z.
Variable py_float : string -> option float.
Variable np_fromstring_int : string -> list Z.
Variable np_fromstring_float : string -> list float.

Local Abbreviation rd_prop :=
  (read_prop py_int py_float np_fromstring_int np_fromstring_float).
Local Abbreviation rd_props :=
  (read_props py_int py_float np_fromstring_int np_fromstring_float).

Lemma call_dtype_raise dtype s e :
  call_dtype py_int py_float dtype s = Raise e ->
  e = ValueError \/ (e = TypeError /\ dtype = t_S30).
Proof.
  destruct dtype; simpl.
  - destruct (py_int s); intros He; [discriminate He |].
    injection He as <-. auto.
  - destruct (py_float s); intros He; [discriminate He |].
    injection He as <-. auto.
  - intros He. injection He as <-. auto.
Qed.

(** A column of strings is read by the string branch: one token, kept
    up to 30 bytes. *)
Lemma read_prop_string items image_def item_counter p :
  field_dtype image_def_dtd (props_name p) = Some t_S30 ->
  rd_prop items (image_def, item_counter) p =
    (item <- getitem items item_counter ;;
     OK (image_def ++ [(props_name p, VStr (String.substring 0 30 item))],
         (item_counter + 1)%nat)).
Proof. intros Hd. unfold read_prop. rewrite Hd. reflexivity. Qed.

(** An entry read with success moves [item_counter] by its tokens. *)
Lemma read_prop_counter items st p st' :
  column_as_declared p = true ->
  rd_prop items st p = OK st' ->
  snd st' = (snd st + tokens_of p)%nat.
Proof.
  unfold column_as_declared, read_prop.
  destruct st as [image_def item_counter].
  destruct (field_dtype image_def_dtd (props_name p)) as [t |];
    [| discriminate].
  destruct p as [name | name dtype | name dtype shape];
    [discriminate | |];
    destruct t, dtype; simpl; try discriminate; intros _ Hr;
    repeat bind_inv Hr; injection Hr as <-; reflexivity.
Qed.

(** An entry that fails raises IndexError or ValueError. *)
Lemma read_prop_raise items st p e :
  column_as_declared p = true ->
  rd_prop items st p = Raise e ->
  e = IndexError \/ e = ValueError.
Proof.
  unfold column_as_declared, read_prop.
  destruct st as [image_def item_counter].
  destruct (field_dtype image_def_dtd (props_name p)) as [t |];
    [| discriminate].
  destruct p as [name | name dtype | name dtype shape];
    [discriminate | |];
    destruct t, dtype; simpl; try discriminate; intros _ Hr.
  all: try (destruct (getitem items item_counter) as [item | e0] eqn:Eg;
            simpl in Hr;
            [| injection Hr as <-; left;
               exact (getitem_raise _ _ Eg)]).
  all: try (destruct (py_int item); simpl in Hr; [discriminate Hr |];
            injection Hr as <-; right; reflexivity).
  all: try (destruct (py_float item); simpl in Hr; [discriminate Hr |];
            injection Hr as <-; right; reflexivity).
  all: try discriminate Hr.
  all: match type of Hr with
       | context [broadcast_to ?n ?l] =>
           destruct (broadcast_to n l) eqn:Eb; simpl in Hr;
           [discriminate Hr |];
           injection Hr as <-; right; exact (broadcast_to_raise _ _ Eb)
       end.
Qed.

Lemma read_props_app items st dtd1 dtd2 :
  rd_props items st (dtd1 ++ dtd2) =
    (st' <- rd_props items st dtd1 ;; rd_props items st' dtd2).
Proof.
  revert st. induction dtd1 as [| p dtd1 IH]; intros st; simpl.
  - reflexivity.
  - destruct (rd_prop items st p) as [st' | e]; simpl;
      [apply IH | reflexivity].
Qed.

Lemma read_props_counter items dtd : forall st st',
  forallb column_as_declared dtd = true ->
  rd_props items st dtd = OK st' ->
  snd st' = (snd st + tokens_required dtd)%nat.
Proof.
  induction dtd as [| p dtd IH]; intros st st' Hd Hr; simpl in *.
  - injection Hr as <-. lia.
  - apply andb_prop in Hd. destruct Hd as (Hp & Hd).
    bind_inv Hr.
    rewrite (IH _ _ Hd Hr), (read_prop_counter _ _ _ Hp Ha). lia.
Qed.

Lemma read_props_raise items dtd : forall st e,
  forallb column_as_declared dtd = true ->
  rd_props items st dtd = Raise e ->
  e = IndexError \/ e = ValueError.
Proof.
  induction dtd as [| p dtd IH]; intros st e Hd Hr; simpl in *.
  - discriminate Hr.
  - apply andb_prop in Hd. destruct Hd as (Hp & Hd).
    destruct (rd_prop items st p) as [st' | e'] eqn:Ep; simpl in Hr.
    + exact (IH _ _ Hd Hr).
    + injection Hr as <-. exact (read_prop_raise _ _ _ Hp Ep).
Qed.

(** A scalar entry at the end of a schema needs the line to reach it. *)
Lemma read_props_last_scalar items dtd name dtype st :
  forallb column_as_declared (dtd ++ [P2 name dtype]) = true ->
  (List.length items < tokens_required (dtd ++ [P2 name dtype]))%nat ->
  snd st = 0%nat ->
  exists e, rd_props items st (dtd ++ [P2 name dtype]) = Raise e
            /\ (e = IndexError \/ e = ValueError).
Proof.
  intros Hd Hlen Hst.
  destruct (rd_props items st (dtd ++ [P2 name dtype]))
    as [st' | e] eqn:Er.
  2:{ exists e. split; [reflexivity |].
      exact (read_props_raise _ _ _ Hd Er). }
  exfalso. rewrite read_props_app in Er. bind_inv Er.
  rewrite forallb_app in Hd. apply andb_prop in Hd.
  destruct Hd as (Hd & Hp). simpl in Hp. rewrite andb_true_r in Hp.
  pose proof (read_props_counter _ _ _ Hd Ha) as Hc.
  simpl in Er. bind_inv Er. clear Er.
  assert (Htok : tokens_required (dtd ++ [P2 name dtype])
                 = (tokens_required dtd + 1)%nat).
  { clear. induction dtd as [| p dtd IH]; simpl; [reflexivity |].
    rewrite IH. lia. }
  destruct a as [image_def item_counter]. simpl in Hc.
  unfold column_as_declared in Hp. unfold read_prop in Ha0.
  destruct (field_dtype image_def_dtd (props_name (P2 name dtype)))
    as [t |]; [| discriminate Hp].
  rewrite (@getitem_short _ items item_counter) in Ha0 by lia.
  destruct t, dtype; simpl in *; discriminate.
Qed.

End ParserFacts.

Lemma mapM_raise {A B} (f : A -> result B) (l : list A) (e : exn) :
  mapM f l = Raise e -> exists x, In x l /\ f x = Raise e.
Proof.
  induction l as [| x l IH]; simpl; intros Hm; [discriminate Hm |].
  destruct (f x) as [y | e'] eqn:Ef; simpl in Hm.
  - destruct (mapM f l) as [ys | e'']; simpl in Hm; [discriminate Hm |].
    destruct (IH Hm) as (x' & Hin & Hx'). exists x'. auto.
  - injection Hm as <-. exists x. auto.
Qed.

Lemma mapM_OK_all {A B} (f : A -> result B) (l : list A) (ys : list B) :
  mapM f l = OK ys -> forall x, In x l -> exists y, f x = OK y.
Proof.
  revert ys. induction l as [| x l IH]; simpl; intros ys Hm x' Hin;
    [contradiction |].
  bind_inv Hm. bind_inv Hm.
  destruct Hin as [<- | Hin]; [eauto | exact (IH _ Ha0 _ Hin)].
Qed.

Section ParseFacts.
Variable py_int : string -> option Z.
Variable py_float : string -> option float.
Variable np_fromstring_int : string -> list Z.
Variable np_fromstring_float : string -> list float.

Local Abbreviation rd_image_def :=
  (read_image_def py_int py_float np_fromstring_int np_fromstring_float).
Local Abbreviation rd_lines :=
  (read_lines py_int py_float np_fromstring_int np_fromstring_float).
Local Abbreviation rd_general_info :=
  (read_general_info py_int py_float np_fromstring_int
     np_fromstring_float).
Local Abbreviation parse :=
  (parse_PAR_header py_int py_float np_fromstring_int
     np_fromstring_float).

Lemma read_image_def_raise line e :
  rd_image_def line = Raise e -> e = IndexError \/ e = ValueError.
Proof.
  unfold read_image_def.
  destruct (read_props _ _ _ _ _ _ _) as [st | e'] eqn:Er; simpl;
    intros He; [discriminate He | injection He as <-].
  exact (read_props_raise _ _ _ _ _ _ _ image_def_dtd_as_declared Er).
Qed.

Lemma read_image_def_short line :
  (List.length (split line) < tokens_required image_def_dtd)%nat ->
  exists e, rd_image_def line = Raise e
            /\ (e = IndexError \/ e = ValueError).
Proof.
  intros Hlen. unfold read_image_def.
  destruct (@read_props_last_scalar py_int py_float np_fromstring_int
              np_fromstring_float (split line)
              (removelast image_def_dtd) "label type" t_int
              ([], 0%nat) image_def_dtd_as_declared Hlen eq_refl)
    as (e & He & Hkind).
  change (removelast image_def_dtd ++ [P2 "label type" t_int])
    with image_def_dtd in He.
  exists e. rewrite He. split; [reflexivity | exact Hkind].
Qed.

Lemma read_general_info_raise general_info line e :
  rd_general_info general_info line = Raise e ->
  e = KeyError \/ e = ValueError \/ e = TypeError.
Proof.
  unfold read_general_info.
  destruct (dict_get _hdr_key_dict _) as [props |];
    [| intros He; injection He as <-; auto].
  destruct props as [name | name dtype | name dtype shape];
    cbn [bind]; [discriminate | |].
  - destruct (call_dtype py_int py_float dtype _) as [v | e'] eqn:Ec;
      cbn [bind]; [discriminate |].
    intros He. injection He as <-.
    destruct (call_dtype_raise _ _ _ _ Ec) as [-> | (-> & _)]; auto.
  - destruct dtype; cbn [np_fromstring bind]; unfold set_shape;
      try destruct (_ =? _)%nat; cbn [bind]; try discriminate;
      intros He; injection He as <-; auto.
Qed.

(** The single pass keeps the image definition lines, stripped, in the
    order of the file. *)
Lemma read_lines_image_info fobj : forall general_info image_info r,
  rd_lines fobj general_info image_info = OK r ->
  snd r = image_info ++ map strip (filter is_image_def_line fobj).
Proof.
  induction fobj as [| line fobj IH]; intros gi ii r Hr; simpl in Hr.
  - injection Hr as <-. simpl. rewrite app_nil_r. reflexivity.
  - simpl. unfold is_image_def_line at 1.
    destruct (startswith (strip line) "#"); simpl.
    + exact (IH _ _ _ Hr).
    + destruct (startswith (strip line) "."); simpl.
      * bind_inv Hr. exact (IH _ _ _ Hr).
      * destruct (is_empty (strip line)); simpl in *.
        -- exact (IH _ _ _ Hr).
        -- rewrite (IH _ _ _ Hr), <- app_assoc. reflexivity.
Qed.

Lemma read_lines_raise fobj : forall general_info image_info e,
  rd_lines fobj general_info image_info = Raise e ->
  e = KeyError \/ e = ValueError \/ e = TypeError.
Proof.
  induction fobj as [| line fobj IH]; intros gi ii e Hr; simpl in Hr.
  - discriminate Hr.
  - destruct (startswith (strip line) "#"); [exact (IH _ _ _ Hr) |].
    destruct (startswith (strip line) ".").
    + destruct (rd_general_info gi (strip line)) as [gi' | e'] eqn:Eg;
        simpl in Hr.
      * exact (IH _ _ _ Hr).
      * injection Hr as <-. exact (read_general_info_raise _ _ Eg).
    + destruct (negb _); exact (IH _ _ _ Hr).
Qed.

Lemma parse_PAR_header_raise fobj e :
  parse fobj = Raise e ->
  e = KeyError \/ e = ValueError \/ e = TypeError \/ e = IndexError.
Proof.
  unfold parse_PAR_header.
  destruct (rd_lines fobj [] []) as [[gi ii] | e'] eqn:El; simpl.
  - destruct (mapM rd_image_def ii) as [defs | e''] eqn:Em; simpl;
      intros He; [discriminate He | injection He as <-].
    destruct (mapM_raise _ _ Em) as (line & _ & Hline).
    destruct (read_image_def_raise _ Hline) as [-> | ->]; auto.
  - intros He. injection He as <-.
    destruct (read_lines_raise _ _ _ El) as [-> | [-> | ->]]; auto.
Qed.

Lemma parse_PAR_header_short fobj line :
  In line fobj -> is_image_def_line line = true ->
  (List.length (split (strip line)) < tokens_required image_def_dtd)%nat ->
  exists e, parse fobj = Raise e.
Proof.
  intros Hin Himg Hlen.
  destruct (parse fobj) as [[gi defs] | e] eqn:Ep; [| eauto].
  exfalso. unfold parse_PAR_header in Ep.
  bind_inv Ep. destruct a as [gi' ii]. bind_inv Ep.
  pose proof (read_lines_image_info _ _ _ Ha) as Hii. simpl in Hii.
  assert (Hin' : In (strip line) ii).
  { rewrite Hii. apply in_map. apply filter_In. auto. }
  destruct (mapM_OK_all _ _ Ha0 _ Hin') as (row & Hrow).
  destruct (read_image_def_short _ Hlen) as (e & He & _).
  congruence.
Qed.

End ParseFacts.

(** C8.  The image definition schema takes 49 tokens.  A line with fewer
    whitespace separated tokens is never turned into a record: reading it
    raises IndexError (no token left at [items[item_counter]]) or
    ValueError (a token that is no number, or an array field cut short),
    the exceptions that stand for the HeaderParseError of the
    specification; and [parse_PAR_header] raises on every file that has
    such an image definition line. *)
Theorem short_image_def_line_fails
    (py_int : string -> option Z) (py_float : string -> option float)
    (np_fromstring_int : string -> list Z)
    (np_fromstring_float : string -> list float) :
  tokens_required image_def_dtd = 49%nat
  /\ (forall line,
      (List.length (split line) < tokens_required image_def_dtd)%nat ->
      exists e,
        read_image_def py_int py_float np_fromstring_int
          np_fromstring_float line = Raise e
        /\ (e = IndexError \/ e = ValueError))
  /\ (forall fobj line,
      In line fobj -> is_image_def_line line = true ->
      (List.length (split (strip line))
       < tokens_required image_def_dtd)%nat ->
      exists e,
        parse_PAR_header py_int py_float np_fromstring_int
          np_fromstring_float fobj = Raise e).
Proof.
  split; [reflexivity | split].
  - apply read_image_def_short.
  - apply parse_PAR_header_short.
Qed.

Lemma short_image_def_line_fails_witness :
  (List.length (split "1 1 1 1 0 2 0 16 62 64 64") < 49)%nat
  /\ (exists e, Examples.read_def "1 1 1 1 0 2 0 16 62 64 64" = Raise e
                /\ (e = IndexError \/ e = ValueError))
  /\ (exists e,
        Examples.parse
          [".    Max. number of slices/locations    :   3";
           "  1 1 1 1 0 2 0 16 62 64 64"]%string = Raise e).
Proof.
  split; [vm_compute; lia | split].
  - apply (proj1 (proj2 (short_image_def_line_fails
                           Examples.dec_int Examples.dec_float
                           Examples.fromstring_int
                           Examples.fromstring_float))).
    vm_compute; lia.
  - apply (proj2 (proj2 (short_image_def_line_fails
                           Examples.dec_int Examples.dec_float
                           Examples.fromstring_int
                           Examples.fromstring_float))
             _ "  1 1 1 1 0 2 0 16 62 64 64"%string).
    + right; left; reflexivity.
    + reflexivity.
    + vm_compute; lia.
Defined.

(** C10.  Every entry of the image definition schema declared 'S30'
    ('contrast type', 'diffusion anisotropy type') is read by the string
    branch, which takes exactly one token; the division [1/0] guarding the
    numeric branch is never reached: neither reading a line nor
    [parse_PAR_header] raises ZeroDivisionError. *)
Theorem S30_fields_read_as_strings
    (py_int : string -> option Z) (py_float : string -> option float)
    (np_fromstring_int : string -> list Z)
    (np_fromstring_float : string -> list float) :
  filter (fun p => match declared_dtype p with
                   | Some t_S30 => true
                   | _ => false
                   end) image_def_dtd
  = [P2 "contrast type" t_S30; P2 "diffusion anisotropy type" t_S30]
  /\ (forall p items image_def item_counter,
      In p image_def_dtd -> declared_dtype p = Some t_S30 ->
      read_prop py_int py_float np_fromstring_int np_fromstring_float
        items (image_def, item_counter) p
      = (item <- getitem items item_counter ;;
         OK (image_def
               ++ [(props_name p, VStr (String.substring 0 30 item))],
             (item_counter + 1)%nat)))
  /\ (forall line,
      read_image_def py_int py_float np_fromstring_int
        np_fromstring_float line <> Raise ZeroDivisionError)
  /\ (forall fobj,
      parse_PAR_header py_int py_float np_fromstring_int
        np_fromstring_float fobj <> Raise ZeroDivisionError).
Proof.
  split; [reflexivity | split; [| split]].
  - intros p items image_def item_counter Hin Hdecl.
    apply read_prop_string.
    pose proof image_def_dtd_as_declared as Hall.
    rewrite forallb_forall in Hall. specialize (Hall p Hin).
    unfold column_as_declared in Hall.
    destruct (field_dtype image_def_dtd (props_name p)) as [t |];
      [| discriminate Hall].
    destruct p as [name | name dtype | name dtype shape];
      simpl in Hdecl; try discriminate Hdecl;
      injection Hdecl as ->; destruct t; simpl in Hall;
      try discriminate Hall; reflexivity.
  - intros line Hz.
    destruct (read_image_def_raise _ _ _ _ _ Hz); discriminate.
  - intros fobj Hz.
    destruct (parse_PAR_header_raise _ _ _ _ _ Hz)
      as [H | [H | [H | H]]]; discriminate H.
Qed.

Lemma S30_fields_read_as_strings_witness :
  read_prop Examples.dec_int Examples.dec_float Examples.fromstring_int
    Examples.fromstring_float ["a"; "b"; "c"]%string ([], 1%nat)
    (P2 "contrast type" t_S30)
  = OK ([("contrast type"%string, VStr "b")], 2%nat).
Proof.
  apply (proj1 (proj2 (S30_fields_read_as_strings
                         Examples.dec_int Examples.dec_float
                         Examples.fromstring_int
                         Examples.fromstring_float))
           (P2 "contrast type" t_S30) ["a"; "b"; "c"]%string [] 1%nat).
  - vm_compute. tauto.
  - reflexivity.
Defined.

(* ================================================================== *)
(** * [np.unique] on integer columns *)

Section UniqueMembers.
Context {A : Type} `{Dtype A}.

Lemma insert_sorted_In (x y : A) (l : list A) :
  In y (insert_sorted x l) <-> y = x \/ In y l.
Proof.
  induction l as [| z l IH]; simpl.
  - intuition.
  - destruct (np_less z x); simpl; [rewrite IH |]; intuition.
Qed.

Lemma np_sort_In (y : A) (l : list A) : In y (np_sort l) <-> In y l.
Proof.
  induction l as [| x l IH]; simpl; [reflexivity |].
  rewrite insert_sorted_In, IH. intuition.
Qed.

Lemma insert_sorted_length (x : A) (l : list A) :
  List.length (insert_sorted x l) = S (List.length l).
Proof.
  induction l as [| z l IH]; simpl; [reflexivity |].
  destruct (np_less z x); simpl; [rewrite IH; reflexivity | reflexivity].
Qed.

Lemma np_sort_length (l : list A) :
  List.length (np_sort l) = List.length l.
Proof.
  induction l as [| x l IH]; simpl; [reflexivity |].
  rewrite insert_sorted_length, IH. reflexivity.
Qed.

Lemma keep_changes_length (prev : A) (l : list A) :
  (List.length (keep_changes prev l) <= List.length l)%nat.
Proof.
  revert prev. induction l as [| x l IH]; intros prev; simpl; [lia |].
  destruct (np_not_equal x prev); simpl; specialize (IH x); lia.
Qed.

(** [np.unique] never returns more values than it is given, and returns
    none only for an empty array. *)
Lemma np_unique_length (l : list A) :
  (List.length (np_unique l) <= List.length l)%nat
  /\ (np_unique l = [] <-> l = []).
Proof.
  unfold np_unique. pose proof (np_sort_length l) as Hlen.
  destruct (np_sort l) as [| x s] eqn:Es; simpl in *.
  - split; [lia |]. destruct l; [tauto | discriminate Hlen].
  - pose proof (keep_changes_length x s). split; [lia |].
    split; [discriminate |]. intros ->. discriminate Hlen.
Qed.

End UniqueMembers.

Lemma insert_sorted_sorted (x : Z) (l : list Z) :
  StronglySorted Z.le l -> StronglySorted Z.le (insert_sorted x l).
Proof.
  induction 1 as [| z l Hs IH Hall]; simpl.
  - constructor; constructor.
  - destruct (Z.ltb_spec z x) as [Hlt | Hge].
    + constructor; [exact IH |].
      rewrite Forall_forall in *. intros y Hy.
      apply insert_sorted_In in Hy.
      destruct Hy as [-> | Hy]; [lia | auto].
    + constructor; [constructor; assumption |].
      constructor; [lia |].
      rewrite Forall_forall in *. intros y Hy. specialize (Hall y Hy). lia.
Qed.

Lemma np_sort_sorted (l : list Z) : StronglySorted Z.le (np_sort l).
Proof.
  induction l as [| x l IH]; simpl; [constructor |].
  apply insert_sorted_sorted. exact IH.
Qed.

(** On a sorted array, keeping the changes keeps every value once. *)
Lemma keep_changes_sorted (l : list Z) : forall prev : Z,
  StronglySorted Z.le (prev :: l) ->
  StronglySorted Z.lt (prev :: keep_changes prev l)
  /\ (forall y, In y (prev :: keep_changes prev l) <-> In y (prev :: l)).
Proof.
  induction l as [| x l IH]; intros prev Hs; simpl.
  - split; [constructor; constructor | tauto].
  - inversion Hs as [| ? ? Hs' Hall]; subst.
    destruct (IH x Hs') as (IHs & IHin).
    assert (Hle : prev <= x) by (inversion Hall; assumption).
    destruct (Z.eqb_spec x prev) as [-> | Hne]; simpl.
    + split; [exact IHs |].
      intros y. specialize (IHin y). simpl in IHin. intuition.
    + split.
      * constructor; [exact IHs |].
        rewrite Forall_forall. intros y Hy. apply IHin in Hy.
        inversion Hs' as [| ? ? _ Hall']; subst.
        rewrite Forall_forall in Hall'.
        destruct Hy as [<- | Hy]; [lia | specialize (Hall' y Hy); lia].
      * intros y. specialize (IHin y). simpl in *. intuition.
Qed.

(** [np.unique] of integers: the values of the array, each once, in
    increasing order. *)
Lemma np_unique_int (l : list Z) :
  StronglySorted Z.lt (np_unique l)
  /\ (forall y, In y (np_unique l) <-> In y l).
Proof.
  unfold np_unique. pose proof (np_sort_sorted l) as Hs.
  pose proof (fun y => np_sort_In y l) as Hin.
  destruct (np_sort l) as [| x s].
  - split; [constructor | exact Hin].
  - destruct (keep_changes_sorted Hs) as (Hs' & Hin').
    split; [exact Hs' |]. intros y. rewrite Hin'. apply Hin.
Qed.

Lemma np_unique_int_NoDup (l : list Z) : NoDup (np_unique l).
Proof.
  destruct (np_unique_int l) as (Hs & _).
  induction Hs as [| x u Hs IH Hall]; constructor; [| exact IH].
  intros Hx. rewrite Forall_forall in Hall. specialize (Hall x Hx). lia.
Qed.

(** One distinct value: a non-empty array of equal integers. *)
Lemma np_unique_int_single (l : list Z) (v : Z) :
  np_unique l = [v] <-> l <> [] /\ (forall x, In x l -> x = v).
Proof.
  destruct (np_unique_int l) as (Hs & Hin). split.
  - intros Hu. rewrite Hu in Hin. split.
    + intros ->. discriminate Hu.
    + intros x Hx. apply Hin in Hx. destruct Hx as [<- | []]. reflexivity.
  - intros (Hne & Hall).
    destruct (np_unique l) as [| a [| b u]] eqn:Eu.
    + apply (proj2 (np_unique_length l)) in Eu. contradiction.
    + rewrite (Hall a); [reflexivity |]. apply Hin. left; reflexivity.
    + exfalso. inversion Hs as [| ? ? _ Hlt]; subst.
      inversion Hlt as [| ? ? Hab _]; subst.
      assert (a = v) by (apply Hall, Hin; simpl; auto).
      assert (b = v) by (apply Hall, Hin; simpl; auto).
      lia.
Qed.

(** Two integers with one distinct value are equal. *)
Lemma np_unique_pair (a b x : Z) :
  np_unique [a; b] = [x] <-> a = x /\ b = x.
Proof.
  rewrite np_unique_int_single. split.
  - intros (_ & Hall). split; apply Hall; simpl; auto.
  - intros (-> & ->). split; [discriminate |].
    intros y [<- | [<- | []]]; reflexivity.
Qed.

(** A scalar integer field that passes the check has its value in every
    record. *)
Lemma unique_int_scalar_all (self : PARRECHeader) (name : field Z)
    (l : list Z) (v : Z) :
  column (image_defs self) name = Arr1 l ->
  _get_unique_image_prop self name = OK [v] ->
  forall x, In x l -> x = v.
Proof.
  intros Hcol Hu.
  destruct (unique_scalar_result _ _ Hcol Hu) as (v' & Hv & Hs).
  injection Hv as <-. apply np_unique_int_single in Hs. tauto.
Qed.

(** An array field of two integers that passes the check: the first two
    records are square. *)
Lemma recon_resolution_squares (self : PARRECHeader) (a b : Z) :
  _get_unique_image_prop self Recon_resolution = OK [a; b] ->
  exists rest,
    map recon_resolution (image_defs self) = (a, a) :: (b, b) :: rest.
Proof.
  intros Hu.
  destruct (unique_array_result self Recon_resolution eq_refl Hu)
    as (x & y & r0 & r1 & rest & Hxy & Hrows & H0 & H1).
  injection Hxy as <- <-. simpl in Hrows.
  destruct (image_defs self) as [| d0 [| d1 defs]]; try discriminate Hrows.
  simpl in Hrows. injection Hrows as <- <- _. simpl.
  destruct (recon_resolution d0) as [a0 b0].
  destruct (recon_resolution d1) as [a1 b1].
  unfold pair_list in H0, H1. simpl in H0, H1.
  apply np_unique_pair in H0, H1.
  destruct H0 as (-> & ->), H1 as (-> & ->). eauto.
Qed.

(** Headers with the same two containers derive the same shape and the
    same zooms. *)
Lemma same_containers (h h' : PARRECHeader) :
  general_info h' = general_info h -> image_defs h' = image_defs h ->
  get_data_shape_in_file h' = get_data_shape_in_file h
  /\ _get_zooms h' = _get_zooms h.
Proof.
  intros Hinfo Hdefs.
  unfold get_data_shape_in_file, _get_zooms, get_voxel_size, get_ndim,
    _get_unique_image_prop.
  rewrite Hinfo, Hdefs. split; reflexivity.
Qed.


(* ================================================================== *)
(** * More about the uniqueness check *)

(** For a scalar integer field the check returns the value of the field
    exactly when the table is not empty and every record has that value;
    in every other case it raises PARRECError. *)
Theorem unique_int_scalar_field (self : PARRECHeader) (name : field Z)
    (l : list Z) :
  column (image_defs self) name = Arr1 l ->
  (forall v, _get_unique_image_prop self name = OK [v]
             <-> l <> [] /\ (forall x, In x l -> x = v))
  /\ (forall u, _get_unique_image_prop self name = OK u ->
                exists v, u = [v])
  /\ (forall e, _get_unique_image_prop self name = Raise e ->
                e = PARRECError).
Proof.
  intros Hcol. rewrite (unique_scalar_column _ _ Hcol).
  split; [| split].
  - intros v. rewrite <- np_unique_int_single.
    destruct (np_unique l) as [| a [| b u]]; split; intros Hu;
      try discriminate Hu; congruence.
  - intros u. destruct (np_unique l) as [| a [| b t]]; intros Hu;
      try discriminate Hu. injection Hu as <-. eauto.
  - intros e. destruct (np_unique l) as [| a [| b t]]; intros Hu;
      try discriminate Hu; injection Hu as <-; reflexivity.
Qed.

Lemma unique_int_scalar_field_witness :
  _get_unique_image_prop
    (new_header (Examples.info 3 1 1) Examples.three_slices "dv")
    Slice_orientation = OK [1]
  /\ _get_unique_image_prop
       (new_header (Examples.info 3 1 1) Examples.three_slices "dv")
       Slice_number = Raise PARRECError.
Proof.
  destruct (@unique_int_scalar_field
              (new_header (Examples.info 3 1 1) Examples.three_slices "dv")
              Slice_orientation [1; 1; 1] eq_refl) as (Hiff & _).
  destruct (@unique_int_scalar_field
              (new_header (Examples.info 3 1 1) Examples.three_slices "dv")
              Slice_number [1; 2; 3] eq_refl) as (_ & _ & Hraise).
  split.
  - apply Hiff. split; [discriminate |].
    intros x [<- | [<- | [<- | []]]]; reflexivity.
  - destruct (_get_unique_image_prop _ Slice_number) as [u | e] eqn:Eu.
    + vm_compute in Eu. discriminate Eu.
    + rewrite (Hraise e eq_refl). reflexivity.
Defined.

(** What the check raises: PARRECError, or IndexError for an array field
    of a table with fewer than two records. *)
Lemma unique_raise {A} `{Dtype A} (self : PARRECHeader) (name : field A)
    (e : exn) :
  _get_unique_image_prop self name = Raise e ->
  e = PARRECError
  \/ (e = IndexError /\ ndim_of (column (image_defs self) name) = 2%nat
      /\ (List.length (image_defs self) < 2)%nat).
Proof.
  destruct (column_kind (image_defs self) name)
    as [(l & Hcol & Hlen) | (rows & Hcol & Hlen)]; rewrite Hcol.
  - rewrite (unique_scalar_column _ _ Hcol).
    destruct (np_unique l) as [| a [| b t]]; intros Hu;
      try discriminate Hu; injection Hu as <-; auto.
  - rewrite (unique_array_column _ _ Hcol). rewrite <- Hlen.
    destruct rows as [| r0 [| r1 rest]]; simpl.
    + intros Hu. injection Hu as <-. right. repeat split; lia.
    + intros Hu. injection Hu as <-. right. repeat split; lia.
    + destruct (np_unique r0) as [| x [| x' u0]];
        destruct (np_unique r1) as [| y [| y' u1]]; intros Hu;
        try discriminate Hu; injection Hu as <-; auto.
Qed.

(** Small tables.  On an empty table the check of a scalar field raises
    PARRECError; on a table with fewer than two records the check of an
    array field raises IndexError, whatever the records hold. *)
Theorem unique_on_small_table {A} `{Dtype A} (self : PARRECHeader)
    (name : field A) :
  (image_defs self = [] ->
   ndim_of (column (image_defs self) name) = 1%nat ->
   _get_unique_image_prop self name = Raise PARRECError)
  /\ ((List.length (image_defs self) < 2)%nat ->
      ndim_of (column (image_defs self) name) = 2%nat ->
      _get_unique_image_prop self name = Raise IndexError).
Proof.
  destruct (column_kind (image_defs self) name)
    as [(l & Hcol & Hlen) | (rows & Hcol & Hlen)]; rewrite Hcol; simpl.
  - split; [| discriminate]. intros Hempty _.
    rewrite (unique_scalar_column _ _ Hcol).
    rewrite Hempty in Hlen. destruct l; [reflexivity | discriminate Hlen].
  - split; [discriminate |]. intros Hshort _.
    rewrite (unique_array_column _ _ Hcol).
    destruct rows as [| r0 [| r1 rest]]; try reflexivity.
    simpl in Hlen. lia.
Qed.

Lemma unique_on_small_table_witness :
  _get_unique_image_prop (new_header (Examples.info 1 1 1) [] "dv")
    Slice_thickness = Raise PARRECError
  /\ _get_unique_image_prop
       (new_header (Examples.info 1 1 1)
          [Examples.image 1 1 1 (64, 64) 0%float 1] "dv")
       Pixel_spacing = Raise IndexError.
Proof.
  split.
  - apply (proj1 (unique_on_small_table
                    (new_header (Examples.info 1 1 1) [] "dv")
                    Slice_thickness)); reflexivity.
  - apply (proj2 (unique_on_small_table
                    (new_header (Examples.info 1 1 1)
                       [Examples.image 1 1 1 (64, 64) 0%float 1] "dv")
                    Pixel_spacing)); [simpl; lia | reflexivity].
Defined.

(** 'recon resolution' passes the check exactly when the first record is
    square and the second record is square; the check returns the side of
    the first and the side of the second, and reads no other record. *)
Theorem recon_resolution_check (self : PARRECHeader) (u : list Z) :
  _get_unique_image_prop self Recon_resolution = OK u
  <-> exists a b rest,
        map recon_resolution (image_defs self) = (a, a) :: (b, b) :: rest
        /\ u = [a; b].
Proof.
  rewrite (unique_array_column self Recon_resolution eq_refl).
  destruct (image_defs self) as [| d0 [| d1 defs]]; simpl.
  - split; [discriminate | intros (a & b & rest & Hm & _); discriminate Hm].
  - split; [discriminate | intros (a & b & rest & Hm & _); discriminate Hm].
  - destruct (recon_resolution d0) as [a0 b0].
    destruct (recon_resolution d1) as [a1 b1]. unfold pair_list; simpl.
    split.
    + intros Hu.
      destruct (np_unique [a0; b0]) as [| x [| x' t0]] eqn:E0;
        try discriminate Hu;
        destruct (np_unique [a1; b1]) as [| y [| y' t1]] eqn:E1;
        try discriminate Hu.
      injection Hu as <-.
      apply np_unique_int_single in E0, E1.
      destruct E0 as (_ & E0), E1 as (_ & E1).
      assert (Ha0 : a0 = x) by (apply E0; simpl; auto).
      assert (Hb0 : b0 = x) by (apply E0; simpl; auto).
      assert (Ha1 : a1 = y) by (apply E1; simpl; auto).
      assert (Hb1 : b1 = y) by (apply E1; simpl; auto).
      subst. exists x, y, (map recon_resolution defs).
      split; reflexivity.
    + intros (a & b & rest & Hm & ->). injection Hm as -> -> -> -> _.
      assert (E0 : np_unique [a; a] = [a]).
      { apply np_unique_int_single. split; [discriminate |].
        intros x [<- | [<- | []]]; reflexivity. }
      assert (E1 : np_unique [b; b] = [b]).
      { apply np_unique_int_single. split; [discriminate |].
        intros x [<- | [<- | []]]; reflexivity. }
      rewrite E0, E1. reflexivity.
Qed.

(* ================================================================== *)
(** * More about shape, zooms and scaling *)

(** The three counts of [get_data_shape_in_file] are counts of distinct
    values: [np.unique] gives each slice number, dynamic scan number and
    echo number of the table once, so records that repeat a number do not
    count, and a count is zero only for an empty table. *)
Theorem counts_are_distinct_values (self : PARRECHeader) :
  (exists values,
     nslices self = len values /\ NoDup values
     /\ forall y, In y values
                  <-> In y (map slice_number (image_defs self)))
  /\ (exists values,
        ndynamics self = len values /\ NoDup values
        /\ forall y, In y values
                     <-> In y (map dynamic_scan_number (image_defs self)))
  /\ (exists values,
        nechos self = len values /\ NoDup values
        /\ forall y, In y values
                     <-> In y (map echo_number (image_defs self)))
  /\ (nslices self = 0 <-> image_defs self = [])
  /\ 0 <= nslices self <= len (image_defs self).
Proof.
  assert (Hcount : forall col : list Z,
            exists values,
              len (np_unique col) = len values /\ NoDup values
              /\ forall y, In y values <-> In y col).
  { intros col. exists (np_unique col).
    split; [reflexivity |].
    split; [apply np_unique_int_NoDup | apply np_unique_int]. }
  unfold nslices, ndynamics, nechos.
  split; [apply Hcount |]. split; [apply Hcount |].
  split; [apply Hcount |]. split; [split |].
  - unfold len. intros H0.
    destruct (np_unique (map slice_number (image_defs self))) eqn:Eu;
      [| simpl List.length in H0; lia].
    apply (proj1 (proj2 (np_unique_length _))) in Eu.
    destruct (image_defs self); [reflexivity | discriminate Eu].
  - intros ->. reflexivity.
  - pose proof (proj1 (np_unique_length
                         (map slice_number (image_defs self)))) as Hle.
    rewrite length_map in Hle. unfold len. lia.
Qed.

(** [_get_zooms] returns as many zooms as [get_ndim] says. *)
Theorem zooms_length (self : PARRECHeader) (zooms : list float) :
  _get_zooms self = OK zooms -> List.length zooms = get_ndim self.
Proof.
  unfold _get_zooms. intros Hz.
  destruct (_get_unique_image_prop self Slice_gap) as [ug | e] eqn:Eg;
    [| discriminate Hz].
  destruct (unique_scalar_result self Slice_gap eq_refl Eg) as (g & -> & _).
  cbn [getitem nth_error bind] in Hz.
  destruct (get_voxel_size self) as [v | e] eqn:Ev; [| discriminate Hz].
  unfold get_voxel_size in Ev. repeat bind_inv Ev. injection Ev as <-.
  destruct (get_ndim_cases self) as [Hn | Hn]; rewrite Hn in *;
    cbn in Hz.
  - injection Hz as <-. reflexivity.
  - destruct (gt1 (max_dynamics (general_info self))); injection Hz as <-;
      reflexivity.
Qed.

Lemma zooms_length_witness :
  List.length [3.75; 3.75; 8; 2]%float
  = get_ndim
      (new_header (Examples.info 3 5 1) Examples.five_dynamics "dv").
Proof.
  apply zooms_length. vm_compute. reflexivity.
Defined.

(** A method other than 'dv' and 'fp' never gets a scaling: the three
    uniqueness checks come first, and when they pass ValueError is
    raised. *)
Theorem unknown_scaling_method (self : PARRECHeader) (method : string) :
  method <> "dv"%string -> method <> "fp"%string ->
  (forall r, get_data_scaling self method <> OK r)
  /\ (forall r, get_data_scaling self "dv" = OK r ->
                get_data_scaling self method = Raise ValueError)
  /\ (forall e, get_data_scaling self "dv" = Raise e ->
                get_data_scaling self method = Raise e).
Proof.
  intros Hdv Hfp. apply String.eqb_neq in Hdv, Hfp.
  unfold get_data_scaling. rewrite Hdv, Hfp.
  destruct (_get_unique_image_prop self Scale_slope); cbn [bind];
    [| repeat split; intros; congruence].
  destruct (_get_unique_image_prop self Rescale_slope); cbn [bind];
    [| repeat split; intros; congruence].
  destruct (_get_unique_image_prop self Rescale_intercept); cbn [bind];
    repeat split; intros; simpl in *; congruence.
Qed.

Lemma unknown_scaling_method_witness :
  get_data_scaling
    (new_header (Examples.info 3 1 1) Examples.three_slices "dv") "DV"
  = Raise ValueError.
Proof.
  destruct (@unknown_scaling_method
              (new_header (Examples.info 3 1 1) Examples.three_slices "dv")
              "DV") as (_ & Hraise & _); [discriminate .. |].
  apply (Hraise ([1.5], [0])%float). vm_compute. reflexivity.
Defined.

(* ================================================================== *)
(** * More about construction and copies *)

(** What the header derives is a function of its two containers: the
    label kept, the default scaling and the base class play no part. *)
Theorem derived_from_containers (h h' : PARRECHeader) :
  general_info h' = general_info h -> image_defs h' = image_defs h ->
  get_data_shape_in_file h' = get_data_shape_in_file h
  /\ get_voxel_size h' = get_voxel_size h
  /\ _get_zooms h' = _get_zooms h
  /\ get_ndim h' = get_ndim h
  /\ (forall method,
      get_data_scaling h' method = get_data_scaling h method).
Proof.
  intros Hinfo Hdefs.
  unfold get_data_shape_in_file, _get_zooms, get_voxel_size, get_ndim,
    get_data_scaling, _get_unique_image_prop.
  rewrite Hinfo, Hdefs. repeat split; reflexivity.
Qed.

Lemma derived_from_containers_witness :
  _get_zooms (Examples.header_of Examples.three_slices)
  = _get_zooms
      (new_header (Examples.info 3 1 1) Examples.three_slices "fp").
Proof.
  apply (@derived_from_containers
           (new_header (Examples.info 3 1 1) Examples.three_slices "fp")
           (Examples.header_of Examples.three_slices));
    reflexivity.
Defined.

Lemma Header_init_ok self dtype shape zooms :
  shape <> [] -> List.length zooms = List.length shape ->
  existsb (fun z => PrimFloat.ltb z 0) zooms = false ->
  Header_init self dtype shape zooms
  = OK (set_base self dtype shape zooms).
Proof.
  intros Hne Hlen Hneg. unfold Header_init.
  destruct shape as [| x shape]; [contradiction |].
  rewrite Hlen, Nat.eqb_refl, Hneg. reflexivity.
Qed.

Lemma Header_init_raise self dtype shape zooms e :
  Header_init self dtype shape zooms = Raise e -> e = HeaderDataError.
Proof.
  unfold Header_init. destruct (negb _).
  - intros He. injection He as <-. reflexivity.
  - destruct (existsb _ zooms); intros He;
      [injection He as <-; reflexivity | discriminate He].
Qed.

(** The constructor in one piece: the header it returns, when it does. *)
Lemma init_result info defs scaling h :
  __init__ info defs scaling = OK h ->
  exists bits dtype shape zooms,
    _get_unique_image_prop (new_header info defs scaling) Image_pixel_size
      = OK [bits]
    /\ np_typeDict_int bits = OK dtype
    /\ get_data_shape_in_file (new_header info defs scaling) = OK shape
    /\ _get_zooms (new_header info defs scaling) = OK zooms
    /\ shape <> []
    /\ List.length zooms = List.length shape
    /\ existsb (fun z => PrimFloat.ltb z 0) zooms = false
    /\ h = set_base (new_header info defs scaling) dtype shape zooms.
Proof.
  unfold __init__. intros Hh.
  destruct (_get_unique_image_prop (new_header info defs scaling)
              Image_pixel_size) as [u | e] eqn:Eu; [| discriminate Hh].
  destruct (unique_scalar_result _ Image_pixel_size eq_refl Eu)
    as (bits & -> & _).
  cbn [getitem nth_error bind] in Hh.
  destruct (np_typeDict_int bits) as [dtype | e] eqn:Et;
    [| discriminate Hh].
  cbn [bind] in Hh.
  destruct (get_data_shape_in_file _) as [shape | e] eqn:Es;
    [| discriminate Hh].
  destruct (_get_zooms _) as [zooms | e]; [| discriminate Hh].
  cbn [bind] in Hh.
  assert (Hne : shape <> []).
  { destruct (data_shape_cases _ Es)
      as (_ & x & y & _ & [Hc | [Hc | [Hc | Hc]]]);
      destruct Hc as (_ & _ & _ & ->); discriminate. }
  apply Header_init_inv in Hh.
  destruct shape as [| x shape]; [contradiction |].
  destruct Hh as (-> & Hlen & Hneg).
  exists bits, dtype, (x :: shape), zooms. auto 10.
Qed.

(** The default scaling plays no part in the construction. *)
Lemma init_any_scaling info defs scaling scaling' h :
  __init__ info defs scaling = OK h ->
  __init__ info defs scaling'
  = OK (set_base (new_header info defs scaling')
          (data_dtype (base h)) (data_shape (base h))
          (data_zooms (base h))).
Proof.
  intros Hh.
  destruct (init_result _ _ _ Hh)
    as (bits & dtype & shape & zooms & Hb & Ht & Hs & Hz & Hne & Hlen
        & Hneg & ->).
  destruct (@same_containers (new_header info defs scaling)
              (new_header info defs scaling') eq_refl eq_refl)
    as (Hs' & Hz').
  unfold __init__.
  rewrite (unique_same_table (new_header info defs scaling)
             (new_header info defs scaling') Image_pixel_size eq_refl), Hb.
  cbn [getitem nth_error bind]. rewrite Ht. cbn [bind].
  rewrite Hs', Hs, Hz', Hz. cbn [bind].
  apply Header_init_ok; assumption.
Qed.

(** A header is constructed only from a table of two records or more
    whose first two records have a square recon resolution, the first two
    entries of the shape; an empty table raises PARRECError. *)
Theorem init_needs_two_records info defs scaling :
  __init__ info [] scaling = Raise PARRECError
  /\ forall h, __init__ info defs scaling = OK h ->
       exists a b rest shape_rest,
         map recon_resolution defs = (a, a) :: (b, b) :: rest
         /\ get_data_shape h = a :: b :: shape_rest
         /\ (2 <= List.length defs)%nat.
Proof.
  split; [reflexivity |].
  intros h Hh.
  destruct (init_result _ _ _ Hh)
    as (bits & dtype & shape & zooms & _ & _ & Hs & _ & _ & _ & _ & ->).
  destruct (data_shape_cases _ Hs) as (_ & a & b & Hu & Hc).
  apply recon_resolution_squares in Hu.
  destruct Hu as (rest & Hm).
  simpl in Hm. exists a, b, rest.
  assert (Hlen : (2 <= List.length defs)%nat).
  { rewrite <- (length_map recon_resolution), Hm. simpl. lia. }
  unfold get_data_shape. simpl.
  destruct Hc as [Hc | [Hc | [Hc | Hc]]];
    destruct Hc as (_ & _ & _ & ->); eexists; auto.
Qed.

Lemma init_needs_two_records_witness :
  exists a b rest shape_rest,
    map recon_resolution Examples.three_slices = (a, a) :: (b, b) :: rest
    /\ get_data_shape (Examples.header_of Examples.three_slices)
       = a :: b :: shape_rest
    /\ (2 <= List.length Examples.three_slices)%nat.
Proof.
  apply (proj2 (init_needs_two_records (Examples.info 3 1 1)
                  Examples.three_slices "dv")).
  vm_compute. reflexivity.
Defined.

(** The data type of a constructed header is 8, 16, 32 or 64 bits wide.
    Every record of the table has one 'image pixel size': that width, or
    0, for which numpy's 'int0' gives the 64 bit type. *)
Theorem init_data_dtype info defs scaling h :
  __init__ info defs scaling = OK h ->
  In (data_dtype (base h)) [8; 16; 32; 64]
  /\ exists bits,
       (forall d, In d defs -> image_pixel_size d = bits)
       /\ (bits = data_dtype (base h)
           \/ (bits = 0 /\ data_dtype (base h) = 64)).
Proof.
  intros Hh.
  destruct (init_result _ _ _ Hh)
    as (bits & dtype & shape & zooms & Hb & Ht & _ & _ & _ & _ & _ & ->).
  simpl.
  assert (Hall : forall d, In d defs -> image_pixel_size d = bits).
  { intros d Hd.
    apply (@unique_int_scalar_all (new_header info defs scaling)
             Image_pixel_size _ bits eq_refl Hb).
    simpl. apply in_map. exact Hd. }
  unfold np_typeDict_int in Ht.
  destruct (bits =? 8) eqn:E8; simpl in Ht.
  { injection Ht as <-. apply Z.eqb_eq in E8. subst bits.
    split; [simpl; auto | exists 8; auto]. }
  destruct (bits =? 16) eqn:E16; simpl in Ht.
  { injection Ht as <-. apply Z.eqb_eq in E16. subst bits.
    split; [simpl; auto | exists 16; auto]. }
  destruct (bits =? 32) eqn:E32; simpl in Ht.
  { injection Ht as <-. apply Z.eqb_eq in E32. subst bits.
    split; [simpl; auto | exists 32; auto]. }
  destruct (bits =? 64) eqn:E64; simpl in Ht.
  { injection Ht as <-. apply Z.eqb_eq in E64. subst bits.
    split; [simpl; auto 6 | exists 64; auto]. }
  destruct (bits =? 0) eqn:E0; [| discriminate Ht].
  injection Ht as <-. apply Z.eqb_eq in E0. subst bits.
  split; [simpl; auto 6 | exists 0; auto].
Qed.

Lemma init_data_dtype_witness :
  In (data_dtype (base (Examples.header_of Examples.three_slices)))
     [8; 16; 32; 64].
Proof.
  apply (@init_data_dtype (Examples.info 3 1 1) Examples.three_slices
           "dv" (Examples.header_of Examples.three_slices)).
  vm_compute. reflexivity.
Defined.

(** What the constructor raises: PARRECError, the KeyError of an unknown
    integer width, RuntimeError, IndexError, or the HeaderDataError of
    the base class.  IndexError is raised only for a table with fewer
    than two records; HeaderDataError only when shape and zooms have been
    computed and differ in length, or a zoom is below zero. *)
Theorem init_raises info defs scaling e :
  __init__ info defs scaling = Raise e ->
  e = PARRECError \/ e = KeyError \/ e = RuntimeError
  \/ (e = IndexError /\ (List.length defs < 2)%nat)
  \/ (e = HeaderDataError
      /\ exists shape zooms,
           get_data_shape_in_file (new_header info defs scaling) = OK shape
           /\ _get_zooms (new_header info defs scaling) = OK zooms
           /\ (List.length zooms <> List.length shape
               \/ existsb (fun z => PrimFloat.ltb z 0) zooms = true)).
Proof.
  unfold __init__.
  destruct (_get_unique_image_prop (new_header info defs scaling)
              Image_pixel_size) as [u | e0] eqn:Eu; cbn [bind].
  2:{ intros He. injection He as <-.
      destruct (unique_raise _ _ Eu) as [-> | (_ & Hnd & _)]; auto 10.
      discriminate Hnd. }
  destruct (unique_scalar_result _ Image_pixel_size eq_refl Eu)
    as (bits & -> & _).
  cbn [getitem nth_error bind].
  destruct (np_typeDict_int bits) as [dtype | e0] eqn:Et; cbn [bind].
  2:{ intros He. injection He as <-. unfold np_typeDict_int in Et.
      destruct (_ || _)%bool; [discriminate Et |].
      destruct (bits =? 0); [discriminate Et |].
      injection Et as <-. auto 10. }
  destruct (get_data_shape_in_file _) as [shape | e0] eqn:Es; cbn [bind].
  2:{ intros He. injection He as <-.
      rewrite get_data_shape_in_file_unfold in Es.
      destruct (negb _); [injection Es as <-; auto 10 |].
      destruct (1 <? _)%nat; [injection Es as <-; auto 10 |].
      destruct (_get_unique_image_prop _ Recon_resolution)
        as [u | e1] eqn:Er; [discriminate Es |].
      injection Es as <-.
      destruct (unique_raise _ _ Er) as [-> | (-> & _ & Hlen)]; auto 10. }
  destruct (_get_zooms _) as [zooms | e0] eqn:Ez; cbn [bind].
  { intros He. right; right; right; right.
    assert (Hne : shape <> []).
    { destruct (data_shape_cases _ Es)
        as (_ & x & y & _ & [Hc | [Hc | [Hc | Hc]]]);
        destruct Hc as (_ & _ & _ & ->); discriminate. }
    split; [exact (Header_init_raise _ _ _ _ He) |].
    exists shape, zooms. split; [reflexivity |]. split; [reflexivity |].
    destruct (Nat.eq_dec (List.length zooms) (List.length shape))
      as [Hlen | Hlen]; [| auto].
    destruct (existsb (fun z => PrimFloat.ltb z 0) zooms) eqn:Hneg;
      [auto |].
    rewrite (@Header_init_ok (new_header info defs scaling) dtype shape
               zooms Hne Hlen Hneg) in He.
    discriminate He. }
  intros He. injection He as <-.
  unfold _get_zooms, get_voxel_size in Ez.
  destruct (_get_unique_image_prop _ Slice_gap) as [ug | e1] eqn:Eg;
    cbn [bind] in Ez.
  2:{ injection Ez as <-.
      destruct (unique_raise _ _ Eg) as [-> | (_ & Hnd & _)]; auto 10.
      discriminate Hnd. }
  destruct (unique_scalar_result _ Slice_gap eq_refl Eg) as (g & -> & _).
  cbn [getitem nth_error bind] in Ez.
  destruct (_get_unique_image_prop _ Slice_thickness) as [ut | e1] eqn:Et';
    cbn [bind] in Ez.
  2:{ injection Ez as <-.
      destruct (unique_raise _ _ Et') as [-> | (_ & Hnd & _)]; auto 10.
      discriminate Hnd. }
  destruct (unique_scalar_result _ Slice_thickness eq_refl Et')
    as (t & -> & _).
  cbn [getitem nth_error bind] in Ez.
  destruct (_get_unique_image_prop _ Pixel_spacing) as [up | e1] eqn:Ep;
    cbn [bind] in Ez.
  2:{ injection Ez as <-.
      destruct (unique_raise _ _ Ep) as [-> | (-> & _ & Hlen)]; auto 10. }
  destruct (unique_array_result _ Pixel_spacing eq_refl Ep)
    as (px & py & _ & _ & _ & -> & _).
  exfalso. cbn [getitem nth_error bind app] in Ez.
  destruct (get_ndim_cases (new_header info defs scaling)) as [Hn | Hn];
    rewrite Hn in Ez; cbn in Ez;
    [| destruct (gt1 _)]; discriminate Ez.
Qed.

Lemma init_raises_witness :
  __init__ (Examples.info 3 1 1) Examples.five_dynamics "dv"
  = Raise HeaderDataError.
Proof.
  destruct (__init__ (Examples.info 3 1 1) Examples.five_dynamics "dv")
    as [h | e] eqn:Ei; [vm_compute in Ei; discriminate Ei |].
  destruct (init_raises _ _ _ Ei)
    as [-> | [-> | [-> | [(-> & _) | (-> & _)]]]];
    try (vm_compute in Ei; discriminate Ei).
  reflexivity.
Defined.

(** Copying twice is copying once. *)
Theorem copy_idempotent (self h : PARRECHeader) :
  copy self = OK h -> copy h = OK h.
Proof.
  unfold copy. intros Hc.
  destruct (init_fields _ _ _ Hc) as (Hinfo & Hdefs & _).
  rewrite Hinfo, Hdefs. exact Hc.
Qed.

Lemma copy_idempotent_witness :
  copy (Examples.header_of Examples.three_slices)
  = OK (Examples.header_of Examples.three_slices).
Proof.
  apply (@copy_idempotent (Examples.header_of Examples.three_slices)).
  vm_compute. reflexivity.
Defined.

(** [from_header] returns a header only for a [PARRECHeader], the copy of
    it: with the same two containers, no label kept and the default
    scaling 'dv'. *)
Theorem from_header_ok (header : header_arg) (h : PARRECHeader) :
  from_header header = OK h ->
  exists self,
    header = PARREC self /\ copy self = OK h
    /\ general_info h = general_info self
    /\ image_defs h = image_defs self
    /\ _slice_orientation h = None
    /\ default_scaling h = "dv"%string.
Proof.
  destruct header as [| self |]; simpl; try discriminate.
  intros Hc. exists self.
  destruct (init_fields _ _ _ Hc) as (Hinfo & Hdefs & Hsc & Hnone).
  auto 7.
Qed.

Lemma from_header_ok_witness :
  exists self,
    PARREC (Examples.header_of Examples.three_slices) = PARREC self
    /\ copy self = OK (Examples.header_of Examples.three_slices)
    /\ general_info (Examples.header_of Examples.three_slices)
       = general_info self
    /\ image_defs (Examples.header_of Examples.three_slices)
       = image_defs self
    /\ _slice_orientation (Examples.header_of Examples.three_slices)
       = None
    /\ default_scaling (Examples.header_of Examples.three_slices)
       = "dv"%string.
Proof.
  apply from_header_ok. vm_compute. reflexivity.
Defined.

(* ================================================================== *)
(** * More about the label kept and the affine *)

(** [get_slice_orientation] works once: the header it returns differs
    from the one it is given in the label kept only, and a second call
    returns the same label and leaves that header as it is. *)
Theorem slice_orientation_computed_once (self h : PARRECHeader)
    (label : string) :
  get_slice_orientation self = OK (label, h) ->
  get_slice_orientation h = OK (label, h)
  /\ _slice_orientation h = Some label
  /\ general_info h = general_info self
  /\ image_defs h = image_defs self
  /\ default_scaling h = default_scaling self
  /\ base h = base self.
Proof.
  intros Hg. pose proof (get_slice_orientation_keeps _ Hg) as Hk.
  split; [| exact Hk].
  apply get_slice_orientation_cached. tauto.
Qed.

Lemma slice_orientation_computed_once_witness :
  get_slice_orientation
    (set_slice_orientation (Examples.header_of Examples.three_slices)
       "transverse")
  = OK ("transverse"%string,
        set_slice_orientation (Examples.header_of Examples.three_slices)
          "transverse").
Proof.
  apply (@slice_orientation_computed_once
           (Examples.header_of Examples.three_slices)).
  vm_compute. reflexivity.
Defined.

Section AffineMore.
Variable euler2mat : float -> float -> float -> mat3.

(** An origin that is not 'scanner' is not refused: it is 'fov'. *)
Theorem affine_other_origin (self : PARRECHeader) (origin : string) :
  origin <> "scanner"%string ->
  get_affine euler2mat self origin = get_affine euler2mat self "fov".
Proof.
  intros Hne. apply String.eqb_neq in Hne.
  unfold get_affine. rewrite Hne. reflexivity.
Qed.

(** Through [get_slice_orientation] the stored shape and zooms stay
    those the header computes. *)
Lemma stored_step (h0 h1 : PARRECHeader) (label : string) :
  get_slice_orientation h0 = OK (label, h1) ->
  get_data_shape_in_file h0 = OK (get_data_shape h0)
  /\ _get_zooms h0 = OK (get_zooms h0) ->
  get_data_shape_in_file h1 = OK (get_data_shape h1)
  /\ _get_zooms h1 = OK (get_zooms h1).
Proof.
  intros Hg (Hs & Hz).
  destruct (get_slice_orientation_keeps _ Hg)
    as (_ & Hinfo & Hdefs & _ & Hbase).
  destruct (same_containers h0 h1 Hinfo Hdefs) as (Hs' & Hz').
  unfold get_data_shape, get_zooms in *.
  rewrite Hs', Hz', Hbase. auto.
Qed.

Lemma reachable_stored (h : PARRECHeader) :
  reachable euler2mat h ->
  get_data_shape_in_file h = OK (get_data_shape h)
  /\ _get_zooms h = OK (get_zooms h).
Proof.
  induction 1 as [info defs scaling h Hinit
                 | h label h' _ IH Hg
                 | h origin aff h' _ IH Hg].
  - destruct (init_result _ _ _ Hinit)
      as (bits & dtype & shape & zooms & _ & _ & Hs & Hz & _ & _ & _ & ->).
    destruct (@same_containers (new_header info defs scaling)
                (set_base (new_header info defs scaling) dtype shape
                   zooms) eq_refl eq_refl) as (Hs' & Hz').
    rewrite Hs', Hz'. auto.
  - exact (@stored_step _ _ _ Hg IH).
  - destruct (get_affine_header _ _ _ Hg) as (label & Hl).
    exact (@stored_step _ _ _ Hl IH).
Qed.

(** In a header a program holds, the shape and the zooms of the base
    class are those the header computes from its containers, and the data
    type is the one numpy names for the unique 'image pixel size',
    whatever label the header keeps. *)
Theorem stored_shape_and_zooms (h : PARRECHeader) :
  reachable euler2mat h ->
  get_data_shape_in_file h = OK (get_data_shape h)
  /\ _get_zooms h = OK (get_zooms h)
  /\ exists bits,
       _get_unique_image_prop h Image_pixel_size = OK [bits]
       /\ np_typeDict_int bits = OK (data_dtype (base h)).
Proof.
  intros Hr. destruct (reachable_stored Hr) as (Hs & Hz).
  split; [exact Hs | split; [exact Hz |]]. clear Hs Hz.
  induction Hr as [info defs scaling h Hinit
                  | h label h' Hr IH Hg
                  | h origin aff h' Hr IH Hg].
  - destruct (init_result _ _ _ Hinit)
      as (bits & dtype & shape & zooms & Hb & Ht & _ & _ & _ & _ & _ & ->).
    exists bits. split; [| exact Ht].
    rewrite (unique_same_table (new_header info defs scaling)
               (set_base (new_header info defs scaling) dtype shape
                  zooms) Image_pixel_size eq_refl).
    exact Hb.
  - destruct (get_slice_orientation_keeps _ Hg)
      as (_ & _ & Hdefs & _ & Hbase).
    destruct IH as (bits & Hb & Ht). exists bits.
    rewrite (unique_same_table _ _ _ Hdefs), Hbase. auto.
  - destruct (get_affine_header _ _ _ Hg) as (label & Hl).
    destruct (get_slice_orientation_keeps _ Hl)
      as (_ & _ & Hdefs & _ & Hbase).
    destruct IH as (bits & Hb & Ht). exists bits.
    rewrite (unique_same_table _ _ _ Hdefs), Hbase. auto.
Qed.


End AffineMore.

Lemma affine_other_origin_witness :
  get_affine Examples.no_rotation
    (Examples.header_of Examples.three_slices) "FOV"
  = get_affine Examples.no_rotation
      (Examples.header_of Examples.three_slices) "fov".
Proof.
  apply affine_other_origin. discriminate.
Defined.

Lemma three_slices_reachable :
  reachable Examples.no_rotation (Examples.header_of Examples.three_slices).
Proof.
  apply (reach_init Examples.no_rotation (Examples.info 3 1 1)
           Examples.three_slices "dv").
  vm_compute. reflexivity.
Defined.

Lemma stored_shape_and_zooms_witness :
  get_data_shape_in_file (Examples.header_of Examples.three_slices)
  = OK (get_data_shape (Examples.header_of Examples.three_slices)).
Proof.
  apply (proj1 (stored_shape_and_zooms three_slices_reachable)).
Defined.


Lemma get_affine_again_witness :
  match get_affine Examples.no_rotation
          (Examples.header_of Examples.three_slices) "scanner" with
  | OK (_, h') =>
      get_affine Examples.no_rotation h' "fov"
      = get_affine Examples.no_rotation
          (Examples.header_of Examples.three_slices) "fov"
  | Raise _ => True
  end.
Proof.
  destruct (get_affine Examples.no_rotation
              (Examples.header_of Examples.three_slices) "scanner")
    as [[aff h'] | e] eqn:Eg; [| exact I].
  exact (get_affine_again _ _ _ _ Eg).
Defined.

Section CopyMore.
Variable euler2mat : float -> float -> float -> mat3.

(** The constructor accepts the containers of a header a program holds,
    and computes the base class the header has. *)
Lemma reachable_init (h : PARRECHeader) (scaling : string) :
  reachable euler2mat h ->
  __init__ (general_info h) (image_defs h) scaling
  = OK (set_base (new_header (general_info h) (image_defs h) scaling)
          (data_dtype (base h)) (data_shape (base h))
          (data_zooms (base h))).
Proof.
  induction 1 as [info defs scaling0 h Hinit
                 | h label h' _ IH Hg
                 | h origin aff h' _ IH Hg].
  - destruct (init_fields _ _ _ Hinit) as (-> & -> & _).
    exact (@init_any_scaling _ _ _ scaling _ Hinit).
  - destruct (get_slice_orientation_keeps _ Hg)
      as (_ & -> & -> & _ & ->). exact IH.
  - destruct (get_affine_header _ _ _ Hg) as (label & Hl).
    destruct (get_slice_orientation_keeps _ Hl)
      as (_ & -> & -> & _ & ->). exact IH.
Qed.

(** A header a program holds can always be copied.  The copy has the same
    containers, data type, shape and zooms; it keeps no label, and
    [get_slice_orientation] computes on it the label the original
    gives. *)
Theorem copy_of_held_header (h : PARRECHeader) :
  reachable euler2mat h ->
  exists h',
    copy h = OK h' /\ from_header (PARREC h) = OK h'
    /\ general_info h' = general_info h
    /\ image_defs h' = image_defs h
    /\ base h' = base h
    /\ _slice_orientation h' = None
    /\ (forall label h1, get_slice_orientation h = OK (label, h1) ->
        fmap fst (get_slice_orientation h') = OK label).
Proof.
  intros Hr. pose proof (reachable_init "dv" Hr) as Hc.
  eexists. split; [exact Hc |]. split; [exact Hc |].
  split; [reflexivity |]. split; [reflexivity |].
  split; [destruct h as [gi defs so sc [dt sh zo]]; reflexivity |].
  split; [reflexivity |].
  intros label h1 Hl.
  destruct (get_slice_orientation_inv (reachable_inv Hr) Hl)
    as (_ & Hcache).
  destruct (get_slice_orientation_keeps _ Hl) as (Hkept & _ & Hdefs & _).
  destruct (Hcache label Hkept) as (code & Hu & Hcode).
  rewrite (unique_same_table _ _ _ Hdefs) in Hu.
  unfold get_slice_orientation. cbn [_slice_orientation set_base
                                      new_header].
  match goal with
  | |- context [_get_unique_image_prop ?x Slice_orientation] =>
      rewrite (unique_same_table h x Slice_orientation eq_refl), Hu
  end.
  cbn [getitem nth_error bind]. rewrite Hcode. reflexivity.
Qed.

End CopyMore.

Lemma copy_of_held_header_witness :
  exists h',
    copy (Examples.header_of Examples.three_slices) = OK h'
    /\ from_header (PARREC (Examples.header_of Examples.three_slices))
       = OK h'
    /\ general_info h'
       = general_info (Examples.header_of Examples.three_slices)
    /\ image_defs h'
       = image_defs (Examples.header_of Examples.three_slices)
    /\ base h' = base (Examples.header_of Examples.three_slices)
    /\ _slice_orientation h' = None
    /\ (forall label h1,
        get_slice_orientation (Examples.header_of Examples.three_slices)
        = OK (label, h1) ->
        fmap fst (get_slice_orientation h') = OK label).
Proof.
  exact (copy_of_held_header three_slices_reachable).
Defined.

(* ================================================================== *)
(** * More about the reader *)

Lemma substring_length_le (n m : nat) (s : string) :
  (String.length (String.substring n m s) <= m)%nat.
Proof.
  revert n m. induction s as [| c s IH]; intros n m.
  - destruct n, m; simpl; lia.
  - destruct n as [| n]; [destruct m as [| m] |]; simpl.
    + lia.
    + specialize (IH 0%nat m). lia.
    + apply IH.
Qed.

Lemma substring_none (n : nat) (s : string) :
  String.substring n 0 s = EmptyString.
Proof.
  revert n. induction s as [| c s IH]; intros [| n]; simpl; auto.
Qed.

Lemma broadcast_to_length {A} (n : nat) (l l' : list A) :
  broadcast_to n l = OK l' -> List.length l' = n.
Proof.
  unfold broadcast_to. destruct (Nat.eqb_spec (List.length l) n).
  - intros Hl. injection Hl as <-. assumption.
  - destruct l as [| x [| y l]]; intros Hl; try discriminate Hl.
    injection Hl as <-. apply repeat_length.
Qed.

Lemma mapM_length {A B} (f : A -> result B) (l : list A) (ys : list B) :
  mapM f l = OK ys -> List.length ys = List.length l.
Proof.
  revert ys. induction l as [| x l IH]; simpl; intros ys Hm.
  - injection Hm as <-. reflexivity.
  - bind_inv Hm. bind_inv Hm. injection Hm as <-. simpl.
    rewrite (IH _ Ha0). reflexivity.
Qed.

Lemma dict_get_set {V} (d : list (string * V)) (key : string) (v : V) :
  dict_get (dict_set d key v) key = Some v
  /\ forall k, k <> key -> dict_get (dict_set d key v) k = dict_get d k.
Proof.
  induction d as [| [k0 w] d (IHsame & IHother)]; simpl.
  - rewrite String.eqb_refl. split; [reflexivity |].
    intros k Hk. apply not_eq_sym in Hk. apply String.eqb_neq in Hk.
    rewrite Hk. reflexivity.
  - destruct (String.eqb_spec k0 key) as [-> | Hne]; simpl.
    + rewrite String.eqb_refl. split; [reflexivity |].
      intros k Hk. apply not_eq_sym in Hk. apply String.eqb_neq in Hk.
      rewrite Hk. reflexivity.
    + apply String.eqb_neq in Hne. rewrite Hne.
      split; [exact IHsame |].
      intros k Hk. destruct (k0 =? k)%string; auto.
Qed.

Section ParseMore.
Variable py_int : string -> option Z.
Variable py_float : string -> option float.
Variable np_fromstring_int : string -> list Z.
Variable np_fromstring_float : string -> list float.

Local Abbreviation rprop :=
  (read_prop py_int py_float np_fromstring_int np_fromstring_float).
Local Abbreviation rprops :=
  (read_props py_int py_float np_fromstring_int np_fromstring_float).
Local Abbreviation rimage :=
  (read_image_def py_int py_float np_fromstring_int np_fromstring_float).
Local Abbreviation rlines :=
  (read_lines py_int py_float np_fromstring_int np_fromstring_float).
Local Abbreviation rgeneral :=
  (read_general_info py_int py_float np_fromstring_int
     np_fromstring_float).
Local Abbreviation rparse :=
  (parse_PAR_header py_int py_float np_fromstring_int
     np_fromstring_float).

Lemma read_lines_skipped fobj : forall general_info image_info,
  rlines fobj general_info image_info
  = rlines (filter (fun line => negb (is_skipped_line line)) fobj)
      general_info image_info.
Proof.
  induction fobj as [| line fobj IH]; intros gi ii; [reflexivity |].
  simpl. unfold is_skipped_line at 1.
  destruct (startswith (strip line) "#") eqn:Ec; simpl.
  - apply IH.
  - destruct (is_empty (strip line)) eqn:Ee; simpl.
    + destruct (strip line); [| discriminate Ee]. simpl. apply IH.
    + rewrite Ec, Ee.
      destruct (startswith (strip line) "."); simpl.
      * destruct (rgeneral gi (strip line)); simpl; [apply IH | reflexivity].
      * apply IH.
Qed.

(** Comment lines and blank lines change nothing: the file without them
    gives the same result, or the same exception. *)
Theorem comments_and_blanks_ignored (fobj : list string) :
  rparse fobj
  = rparse (filter (fun line => negb (is_skipped_line line)) fobj).
Proof.
  unfold parse_PAR_header. rewrite <- read_lines_skipped. reflexivity.
Qed.

(** The image definitions come out one for each image definition line,
    in the order of the file, each read from its own line. *)
Theorem image_defs_in_file_order (fobj : list string)
    (general_info : list (string * value))
    (image_defs : list (list (string * value))) :
  rparse fobj = OK (general_info, image_defs) ->
  mapM rimage (map strip (filter is_image_def_line fobj)) = OK image_defs
  /\ List.length image_defs
     = List.length (filter is_image_def_line fobj).
Proof.
  unfold parse_PAR_header. intros Hp.
  bind_inv Hp. destruct a as [gi ii]. bind_inv Hp.
  injection Hp as _ <-.
  pose proof (read_lines_image_info _ _ _ _ _ _ _ Ha) as Hii.
  simpl in Hii. subst ii.
  split; [exact Ha0 |].
  rewrite (mapM_length _ _ Ha0), length_map. reflexivity.
Qed.

Lemma read_prop_fits items image_def item_counter p st' :
  column_as_declared p = true ->
  rprop items (image_def, item_counter) p = OK st' ->
  exists v, fst st' = image_def ++ [(props_name p, v)]
            /\ value_fits p v = true.
Proof.
  unfold column_as_declared, read_prop.
  destruct (field_dtype image_def_dtd (props_name p)) as [t |];
    [| discriminate].
  destruct p as [name | name dtype | name dtype shape];
    [discriminate | |];
    destruct t, dtype; simpl; try discriminate; intros _ Hr.
  - bind_inv Hr. destruct (py_int a); [| discriminate Hr].
    injection Hr as <-. eexists; split; reflexivity.
  - bind_inv Hr. destruct (py_float a); [| discriminate Hr].
    injection Hr as <-. eexists; split; reflexivity.
  - bind_inv Hr. injection Hr as <-. eexists; split; [reflexivity |].
    simpl. apply Nat.leb_le. apply substring_length_le.
  - destruct (broadcast_to _ _) as [l' |] eqn:Eb; [| discriminate Hr].
    injection Hr as <-. eexists; split; [reflexivity |].
    simpl. apply Nat.eqb_eq. exact (broadcast_to_length _ _ Eb).
  - destruct (broadcast_to _ _) as [l' |] eqn:Eb; [| discriminate Hr].
    injection Hr as <-. eexists; split; [reflexivity |].
    simpl. apply Nat.eqb_eq. exact (broadcast_to_length _ _ Eb).
Qed.

Lemma read_props_fits items dtd : forall st st',
  forallb column_as_declared dtd = true ->
  rprops items st dtd = OK st' ->
  exists entries,
    fst st' = fst st ++ entries
    /\ Forall2 (fun p nv => fst nv = props_name p
                            /\ value_fits p (snd nv) = true) dtd entries.
Proof.
  induction dtd as [| p dtd IH]; intros st st' Hd Hr; simpl in *.
  - injection Hr as <-. exists []. rewrite app_nil_r. auto.
  - apply andb_prop in Hd. destruct Hd as (Hp & Hd).
    bind_inv Hr. destruct st as [image_def item_counter].
    destruct (read_prop_fits _ _ _ _ Hp Ha) as (v & Hv & Hfit).
    destruct (IH _ _ Hd Hr) as (entries & He & Hall).
    exists ((props_name p, v) :: entries). split.
    + rewrite He, Hv. simpl. rewrite <- app_assoc. reflexivity.
    + constructor; auto.
Qed.

(** A record that is read has the 41 fields of the schema, in its order,
    each of the declared kind: array fields with as many numbers as the
    shape has elements, string fields cut to 30 bytes. *)
Theorem image_def_fits_schema (line : string)
    (image_def : list (string * value)) :
  rimage line = OK image_def ->
  Forall2 (fun p nv => fst nv = props_name p
                       /\ value_fits p (snd nv) = true)
          image_def_dtd image_def
  /\ List.length image_def = 41%nat.
Proof.
  unfold read_image_def. intros Hr. bind_inv Hr. injection Hr as <-.
  destruct (read_props_fits _ _ _ image_def_dtd_as_declared Ha)
    as (entries & He & Hall).
  simpl in He. rewrite He. split; [exact Hall |].
  apply Forall2_length in Hall. rewrite <- Hall. reflexivity.
Qed.

Lemma getitem_prefix {A} (items items' : list A) (n i : nat) :
  (i < n)%nat -> firstn n items = firstn n items' ->
  getitem items i = getitem items' i.
Proof.
  intros Hi Hf. unfold getitem.
  pose proof (nth_error_firstn n items i) as H1.
  pose proof (nth_error_firstn n items' i) as H2.
  apply Nat.ltb_lt in Hi. rewrite Hi in H1, H2.
  rewrite <- H1, <- H2, Hf. reflexivity.
Qed.

Lemma slice_prefix {A} (items items' : list A) (n c k : nat) :
  (c + k <= n)%nat -> firstn n items = firstn n items' ->
  firstn k (skipn c items) = firstn k (skipn c items').
Proof.
  intros Hle Hf.
  assert (Hcut : forall l : list A,
            firstn k (skipn c l) = firstn k (skipn c (firstn n l))).
  { intros l. rewrite skipn_firstn_comm, firstn_firstn.
    rewrite Nat.min_l by lia. reflexivity. }
  rewrite (Hcut items), (Hcut items'), Hf. reflexivity.
Qed.

Lemma read_prop_prefix items items' n st p :
  column_as_declared p = true ->
  (snd st + tokens_of p <= n)%nat ->
  firstn n items = firstn n items' ->
  rprop items st p = rprop items' st p.
Proof.
  unfold column_as_declared, read_prop.
  destruct st as [image_def item_counter]. cbn [snd].
  destruct (field_dtype image_def_dtd (props_name p)) as [t |];
    [| discriminate].
  destruct p as [name | name dtype | name dtype shape];
    [discriminate | |];
    destruct t, dtype; simpl; try discriminate; intros _ Hle Hf;
    try (rewrite (@getitem_prefix _ items items' n item_counter)
           by (assumption || lia); reflexivity);
    rewrite (@slice_prefix _ items items' n item_counter (np_prod shape))
      by (assumption || lia); reflexivity.
Qed.

Lemma read_props_prefix items items' n dtd : forall st,
  forallb column_as_declared dtd = true ->
  (snd st + tokens_required dtd <= n)%nat ->
  firstn n items = firstn n items' ->
  rprops items st dtd = rprops items' st dtd.
Proof.
  induction dtd as [| p dtd IH]; intros st Hd Hle Hf; simpl in *.
  - reflexivity.
  - apply andb_prop in Hd. destruct Hd as (Hp & Hd).
    rewrite (@read_prop_prefix items items' n st p Hp) by (assumption || lia).
    destruct (rprop items' st p) as [st' | e] eqn:Er; simpl;
      [| reflexivity].
    apply IH; [assumption | | assumption].
    rewrite (read_prop_counter _ _ _ _ _ _ _ Hp Er). lia.
Qed.

(** A line is read through its first 49 tokens: what follows them is
    neither read nor an error. *)
Theorem tokens_after_schema_ignored (line line' : string) :
  firstn 49 (split line) = firstn 49 (split line') ->
  rimage line = rimage line'.
Proof.
  intros Hf. unfold read_image_def.
  rewrite (@read_props_prefix (split line) (split line') 49 image_def_dtd
             ([], 0%nat) image_def_dtd_as_declared);
    [reflexivity | simpl; lia | exact Hf].
Qed.

(** A general information line whose key is not in [_hdr_key_dict] raises
    KeyError; a line without a colon is of that kind, its key being the
    empty string. *)
Theorem general_info_unknown_key (general_info : list (string * value))
    (line : string) :
  (dict_get _hdr_key_dict
     (strip (slice line 1 (find (slice_from line 1) ":" + 1))) = None ->
   rgeneral general_info line = Raise KeyError)
  /\ (String.index 0 ":" (slice_from line 1) = None ->
      rgeneral general_info line = Raise KeyError).
Proof.
  split.
  - intros Hk. unfold read_general_info. rewrite Hk. reflexivity.
  - intros Hi. unfold read_general_info, find. rewrite Hi.
    unfold slice. simpl Z.to_nat. rewrite substring_none. reflexivity.
Qed.

(** A general information line that is read puts one entry in the dict,
    under the short name [_hdr_key_dict] has for the key of the line: the
    text after the colon for a key declared without a type, the number
    [int] or [float] reads from that text for a key declared with a type,
    the array [np.fromstring] reads from it, of as many numbers as the
    shape has elements, for a key declared with a shape.  The entries
    under other names stay. *)
Theorem general_info_entry (general_info general_info' :
                              list (string * value)) (line : string) :
  rgeneral general_info line = OK general_info' ->
  exists props v,
    dict_get _hdr_key_dict (general_info_key line) = Some props
    /\ dict_get general_info' (props_name props) = Some v
    /\ match props with
       | P1 _ => v = VStr (general_info_text line)
       | P2 _ t_int =>
           exists z, py_int (general_info_text line) = Some z
                     /\ v = VInt z
       | P2 _ t_float =>
           exists f, py_float (general_info_text line) = Some f
                     /\ v = VFloat f
       | P3 _ t_int shape =>
           v = VInts (np_fromstring_int (general_info_text line))
           /\ List.length (np_fromstring_int (general_info_text line))
              = np_prod shape
       | P3 _ t_float shape =>
           v = VFloats (np_fromstring_float (general_info_text line))
           /\ List.length (np_fromstring_float (general_info_text line))
              = np_prod shape
       | _ => False
       end
    /\ forall k, k <> props_name props ->
                 dict_get general_info' k = dict_get general_info k.
Proof.
  unfold read_general_info.
  fold (general_info_key line). fold (general_info_text line).
  destruct (dict_get _hdr_key_dict (general_info_key line))
    as [props |] eqn:Ek; [| discriminate].
  intros Hr. bind_inv Hr. injection Hr as <-.
  destruct (dict_get_set general_info (props_name props) a)
    as (Hsame & Hother).
  exists props, a. repeat split; try assumption.
  destruct props as [name | name dtype | name dtype shape].
  - injection Ha as <-. reflexivity.
  - destruct dtype; simpl in Ha.
    + destruct (py_int _) as [z |] eqn:Ez; [| discriminate Ha].
      injection Ha as <-. eauto.
    + destruct (py_float _) as [f |] eqn:Ef; [| discriminate Ha].
      injection Ha as <-. eauto.
    + discriminate Ha.
  - destruct dtype; simpl in Ha; unfold set_shape in Ha;
      try discriminate Ha;
      match type of Ha with
      | context [(?a =? ?b)%nat] =>
          destruct (Nat.eqb_spec a b); [| discriminate Ha]
      end;
      injection Ha as <-; auto.
Qed.

End ParseMore.

Lemma recon_resolution_check_witness :
  _get_unique_image_prop
    (new_header (Examples.info 3 1 1) Examples.three_slices "dv")
    Recon_resolution = OK [64; 64].
Proof.
  apply recon_resolution_check.
  exists 64, 64, [(64, 64)]. split; reflexivity.
Defined.

Lemma image_defs_in_file_order_witness :
  exists general_info image_defs,
    Examples.parse Examples.par_file = OK (general_info, image_defs)
    /\ List.length image_defs
       = List.length (filter is_image_def_line Examples.par_file).
Proof.
  destruct (Examples.parse Examples.par_file) as [[gi defs] | e] eqn:Ep;
    [| vm_compute in Ep; discriminate Ep].
  exists gi, defs. split; [reflexivity |].
  exact (proj2 (image_defs_in_file_order _ _ _ _ _ Ep)).
Defined.

Lemma image_def_fits_schema_witness :
  exists image_def,
    Examples.read_def Examples.image_line = OK image_def
    /\ List.length image_def = 41%nat.
Proof.
  destruct (Examples.read_def Examples.image_line) as [row | e] eqn:Er;
    [| vm_compute in Er; discriminate Er].
  exists row. split; [reflexivity |].
  exact (proj2 (image_def_fits_schema _ _ _ _ _ Er)).
Defined.

Lemma tokens_after_schema_ignored_witness :
  Examples.read_def (Examples.image_line ++ " 7 8 more")
  = Examples.read_def Examples.image_line.
Proof.
  apply tokens_after_schema_ignored. vm_compute. reflexivity.
Defined.

Lemma general_info_unknown_key_witness :
  read_general_info Examples.dec_int Examples.dec_float
    Examples.fromstring_int Examples.fromstring_float []
    ".    Max. number of slices/locations  3"
  = Raise KeyError.
Proof.
  apply (proj2 (general_info_unknown_key Examples.dec_int
                  Examples.dec_float Examples.fromstring_int
                  Examples.fromstring_float []
                  ".    Max. number of slices/locations  3")).
  vm_compute. reflexivity.
Defined.

Lemma general_info_entry_witness :
  exists props v,
    dict_get _hdr_key_dict (general_info_key Examples.slices_line)
    = Some props
    /\ dict_get [("max_slices"%string, VInt 3)] (props_name props) = Some v
    /\ match props with
       | P1 _ => v = VStr (general_info_text Examples.slices_line)
       | P2 _ t_int =>
           exists z, Examples.dec_int
                       (general_info_text Examples.slices_line) = Some z
                     /\ v = VInt z
       | P2 _ t_float =>
           exists f, Examples.dec_float
                       (general_info_text Examples.slices_line) = Some f
                     /\ v = VFloat f
       | P3 _ t_int shape =>
           v = VInts (Examples.fromstring_int
                        (general_info_text Examples.slices_line))
           /\ List.length (Examples.fromstring_int
                             (general_info_text Examples.slices_line))
              = np_prod shape
       | P3 _ t_float shape =>
           v = VFloats (Examples.fromstring_float
                          (general_info_text Examples.slices_line))
           /\ List.length (Examples.fromstring_float
                             (general_info_text Examples.slices_line))
              = np_prod shape
       | _ => False
       end
    /\ forall k, k <> props_name props ->
                 dict_get [("max_slices"%string, VInt 3)] k
                 = dict_get (@nil (string * value)) k.
Proof.
  apply (@general_info_entry Examples.dec_int Examples.dec_float
           Examples.fromstring_int Examples.fromstring_float []
           [("max_slices"%string, VInt 3)] Examples.slices_line).
  vm_compute. reflexivity.
Defined.
